(** * prisma-mysql-adapter: column classification, result marshalling, error translation

    A shallow embedding of [src/conversion.ts] and [src/mysql.ts].

    Conventions of the embedding.
    - A JavaScript number that holds a wire-protocol integer (type code, flag
      mask, character set, length, insert id) is a [Z].
    - An optional property ([columnType?: number]) is an [option]; [None] is
      [undefined].
    - A predicate such as [isBytes] is used by the source only as the
      condition of an [if]: its model is the truthiness of the JavaScript
      value it returns, a [bool].
    - A function that may [throw] returns a [Completion]; asynchronous code
      is sequenced as it is awaited, in a state monad over the trace of calls
      made on the database client. The [debug] log lines are left out. *)

From Stdlib Require Import ZArith String List Lia DecimalString DecimalPos DecimalZ.
From stdpp Require Import base numbers option list strings gmap.

Local Open Scope string_scope.
Local Open Scope list_scope.
Local Open Scope Z_scope.

(** ** JavaScript primitives used by the source *)

(** Truthiness of a number: every number but 0 (and NaN, which no integer is). *)
Definition truthy (n : Z) : bool := negb (n =? 0).

(** [x === c] for an optional number [x] and a number constant [c]. *)
Definition strict_eq (x : option Z) (c : Z) : bool :=
  match x with
  | Some v => v =? c
  | None => false
  end.

Infix "===" := strict_eq (at level 70, no associativity).
Notation "x !== c" := (negb (strict_eq x c)) (at level 70, no associativity).

(** ToInt32 of ECMAScript, on integers: reduction modulo 2^32 into
    [-2^31, 2^31). *)
Definition to_int32 (n : Z) : Z := (n + 2 ^ 31) mod 2 ^ 32 - 2 ^ 31.

(** The [&] operator: both operands through ToInt32, then bitwise and. *)
Definition js_bitand (a b : Z) : Z := Z.land (to_int32 a) (to_int32 b).

(** Decimal notation of an integer: its digits, after [-] when negative. *)
Definition decimal (n : Z) : string := NilZero.string_of_int (Z.to_int n).

(** The Number (IEEE 754 binary64) nearest to a positive integer, ties to
    even: the integer itself up to 2^53, and beyond that a multiple of the
    power of two that leaves 53 significant bits. An integer that no Number
    holds exactly reaches the code as this Number. *)
Definition to_double (n : Z) : Z :=
  if n <=? 2 ^ 53 then n
  else
    let ulp := 2 ^ (Z.log2 n - 52) in
    let q := n / ulp in
    let r := n mod ulp in
    let m :=
      if 2 * r <? ulp then q
      else if ulp <? 2 * r then q + 1
      else if Z.even q then q else q + 1 in
    m * ulp.

(** The decimal that [Number::toString] prints for the Number [x] (a
    positive integer): among the decimals whose nearest Number is [x], one
    with the fewest significant digits, and of those the closest to [x] (the
    even one on a tie). The search goes down the powers of ten [p = 10^j]:
    the two multiples of [p] around [x] are the only candidates with that
    many trailing zeros. *)
Fixpoint shortest_decimal (j : nat) (p x : Z) : Z :=
  let lo := x / p * p in
  let hi := lo + p in
  let lo_fits := (0 <? lo) && (to_double lo =? x) in
  let hi_fits := to_double hi =? x in
  if lo_fits && hi_fits then
    if x - lo <? hi - x then lo
    else if hi - x <? x - lo then hi
    else if Z.even (x / p) then lo else hi
  else if lo_fits then lo
  else if hi_fits then hi
  else
    match j with
    | O => x
    | S j' => shortest_decimal j' (p / 10) x
    end.

(** A digit string without its trailing zeros. *)
Fixpoint strip_zeros (s : string) : string :=
  match s with
  | EmptyString => EmptyString
  | String c rest =>
      match strip_zeros rest with
      | EmptyString =>
          if Ascii.eqb c (Ascii.ascii_of_nat 48) then EmptyString else String c EmptyString
      | kept => String c kept
      end
  end.

(** Exponent notation of a positive integer [v]: [d.ddde+N], or [de+N] for
    a single significant digit. *)
Definition exponential (v : Z) : string :=
  let digits := decimal v in
  let exponent := decimal (Z.of_nat (String.length digits) - 1) in
  match strip_zeros digits with
  | EmptyString => digits
  | String d EmptyString => String d ("e+" +:+ exponent)
  | String d more => String d ("." +:+ more +:+ "e+" +:+ exponent)
  end.

(** [Number.prototype.toString()] of a positive integer held in a Number:
    the shortest decimal that reads back as that Number, written out in
    full below 10^21 and in exponent notation from there on. *)
Definition positive_toString (n : Z) : string :=
  let x := to_double n in
  if 2 ^ 1024 <=? x then "Infinity"
  else
    let width := String.length (decimal x) in
    let v := shortest_decimal width (10 ^ Z.of_nat width) x in
    if v <? 10 ^ 21 then decimal v else exponential v.

(** [Number.prototype.toString()] of an integer held in a Number. Up to
    2^53 these are the integer's own digits; beyond, the digits of the
    nearest Number (2^64 prints 18446744073709552000, 10^21 prints 1e+21). *)
Definition toString (n : Z) : string :=
  if n =? 0 then "0"
  else if n <? 0 then "-" +:+ positive_toString (- n)
  else positive_toString n.

(** The outcome of evaluating code that may throw a value of type [E]. *)
Inductive Completion (E A : Type) : Type :=
| Return (a : A)
| Throw (e : E).
Arguments Return {E A} a.
Arguments Throw {E A} e.

(** [array.map(f)] where the callback may throw: the first throw, in index
    order, ends the map. *)
Fixpoint map_throw {E A B : Type} (f : A -> Completion E B) (l : list A)
  : Completion E (list B) :=
  match l with
  | [] => Return []
  | x :: rest =>
      match f x with
      | Throw e => Throw e
      | Return y =>
          match map_throw f rest with
          | Throw e => Throw e
          | Return ys => Return (y :: ys)
          end
      end
  end.

(** ** src/conversion.ts *)

Module Conversion.

(** [ColumnTypeEnum] of the driver-adapter interface: the members the
    classifier produces. *)
Inductive ColumnType : Set :=
| Numeric | Float | Double | Int32 | Int64 | DateTime | Time | Date
| Text | Bytes | Boolean | Json | Enum.

(** mysql2's [FieldPacket]. [flags] is declared [number | string[]] and read
    through the cast [flags as number]. *)
Record FieldPacket : Type := {
  catalog : string;
  schema : string;
  name : string;
  orgName : string;
  table : string;
  orgTable : string;
  characterSet : option Z;
  columnLength : option Z;
  columnType : option Z;
  flags : Z;
  decimals : Z;
}.

(** [const MySqlCodes: Record<number, string>] *)
Definition MySqlCodes : gmap Z string :=
  list_to_map [
    (0x00, "DECIMAL"); (0x01, "TINY"); (0x02, "SHORT"); (0x03, "LONG");
    (0x04, "FLOAT"); (0x05, "DOUBLE"); (0x06, "NULL"); (0x07, "TIMESTAMP");
    (0x08, "LONGLONG"); (0x09, "INT24"); (0x0a, "DATE"); (0x0b, "TIME");
    (0x0c, "DATETIME"); (0x0d, "YEAR"); (0x0e, "NEWDATE"); (0x0f, "VARCHAR");
    (0x10, "BIT"); (0xf5, "JSON"); (0xf6, "NEWDECIMAL"); (0xf7, "ENUM");
    (0xf8, "SET"); (0xf9, "TINY_BLOB"); (0xfa, "MEDIUM_BLOB");
    (0xfb, "LONG_BLOB"); (0xfc, "BLOB"); (0xfd, "VAR_STRING");
    (0xfe, "STRING"); (0xff, "GEOMETRY")
  ].

Module MySqlTypes.
Definition DECIMAL : Z := 0x00.
Definition TINY : Z := 0x01.
Definition SHORT : Z := 0x02.
Definition LONG : Z := 0x03.
Definition FLOAT : Z := 0x04.
Definition DOUBLE : Z := 0x05.
Definition NULL : Z := 0x06.
Definition TIMESTAMP : Z := 0x07.
Definition LONGLONG : Z := 0x08.
Definition INT24 : Z := 0x09.
Definition DATE : Z := 0x0a.
Definition TIME : Z := 0x0b.
Definition DATETIME : Z := 0x0c.
Definition YEAR : Z := 0x0d.
Definition NEWDATE : Z := 0x0e.
Definition VARCHAR : Z := 0x0f.
Definition BIT : Z := 0x10.
Definition JSON : Z := 0xf5.
Definition NEWDECIMAL : Z := 0xf6.
Definition ENUM : Z := 0xf7.
Definition SET : Z := 0xf8.
Definition TINY_BLOB : Z := 0xf9.
Definition MEDIUM_BLOB : Z := 0xfa.
Definition LONG_BLOB : Z := 0xfb.
Definition BLOB : Z := 0xfc.
Definition VAR_STRING : Z := 0xfd.
Definition STRING : Z := 0xfe.
Definition GEOMETRY : Z := 0xff.
End MySqlTypes.

Module MySqlFlags.
Definition NOT_NULL : Z := 1.
Definition PRI_KEY : Z := 2.
Definition UNIQUE_KEY : Z := 4.
Definition MULTIPLE_KEY : Z := 8.
Definition BLOB : Z := 16.
Definition UNSIGNED : Z := 32.
Definition ZEROFILL : Z := 64.
Definition BINARY : Z := 128.
Definition ENUM : Z := 256.
Definition AUTO_INCREMENT : Z := 512.
Definition TIMESTAMP : Z := 1024.
Definition SET : Z := 2048.
Definition NO_DEFAULT_VALUE : Z := 4096.
Definition ON_UPDATE_NOW : Z := 8192.
Definition NUM : Z := 32768.
End MySqlFlags.

(** A decoded cell value, as far as this layer tells values apart. *)
Inductive Value : Type :=
| VNull
| VString (s : string)
| VNumber (n : Z)
| VBuffer (bytes : list Z).

(** The field handed to a [typeCast] callback: its type name and the text
    [field.string()] yields ([None] for SQL NULL). *)
Module TypeCastField.
Record t : Type := {
  type : string;
  length : Z;
  db : string;
  table : string;
  name : string;
  string_ : option string;
}.
End TypeCastField.

Definition TypeCast : Type := TypeCastField.t -> (unit -> Value) -> Value.

(** The value [field.string()] returns. *)
Definition field_string (field : TypeCastField.t) : Value :=
  match TypeCastField.string_ field with
  | Some s => VString s
  | None => VNull
  end.

Definition typeCast : TypeCast := fun field next =>
  if String.eqb (TypeCastField.type field) "TIMESTAMP" then field_string field
  else if String.eqb (TypeCastField.type field) "DATETIME" then field_string field
  else if String.eqb (TypeCastField.type field) "DATE" then field_string field
  else if String.eqb (TypeCastField.type field) "LONGLONG" then field_string field
  else next tt.

(** [class UnsupportedNativeDataType extends Error] *)
Record UnsupportedNativeDataType : Type := {
  type : string;
  message : string;
}.

(** The constructor: [(field.columnType && MySqlCodes[field.columnType]) || "Unknown"]. *)
Definition new_UnsupportedNativeDataType (field : FieldPacket) : UnsupportedNativeDataType :=
  let type :=
    match columnType field with
    | Some c =>
        if truthy c then
          match MySqlCodes !! c with
          | Some code_name => code_name
          | None => "Unknown"
          end
        else "Unknown"
    | None => "Unknown"
    end in
  {| type := type; message := "Unsupported native data type: " +:+ type |}.

Definition hasFlag (flags target : Z) : Z := js_bitand flags target.

Definition isReal (field : FieldPacket) : bool :=
  (columnType field === MySqlTypes.DECIMAL) || (columnType field === MySqlTypes.NEWDECIMAL).

Definition isFloat (field : FieldPacket) : bool :=
  columnType field === MySqlTypes.FLOAT.

Definition isDouble (field : FieldPacket) : bool :=
  columnType field === MySqlTypes.DOUBLE.

Definition isInt32 (field : FieldPacket) : bool :=
  (columnType field === MySqlTypes.TINY) ||
  (columnType field === MySqlTypes.SHORT) ||
  (columnType field === MySqlTypes.YEAR) ||
  ((columnType field === MySqlTypes.LONG) && negb (truthy (hasFlag (flags field) MySqlFlags.UNSIGNED))) ||
  ((columnType field === MySqlTypes.INT24) && negb (truthy (hasFlag (flags field) MySqlFlags.UNSIGNED))).

Definition isInt64 (field : FieldPacket) : bool :=
  (columnType field === MySqlTypes.LONGLONG) ||
  ((columnType field === MySqlTypes.LONG) && truthy (hasFlag (flags field) MySqlFlags.UNSIGNED)) ||
  ((columnType field === MySqlTypes.INT24) && truthy (hasFlag (flags field) MySqlFlags.UNSIGNED)).

Definition isDateTime (field : FieldPacket) : bool :=
  (columnType field === MySqlTypes.TIMESTAMP) || (columnType field === MySqlTypes.DATETIME).

Definition isTime (field : FieldPacket) : bool :=
  columnType field === MySqlTypes.TIME.

Definition isDate (field : FieldPacket) : bool :=
  (columnType field === MySqlTypes.DATE) || (columnType field === MySqlTypes.NEWDATE).

Definition isText (field : FieldPacket) : bool :=
  (columnType field === MySqlTypes.VARCHAR) ||
  (columnType field === MySqlTypes.VAR_STRING) ||
  (columnType field === MySqlTypes.STRING) ||
  ((columnType field === MySqlTypes.TINY_BLOB) && (characterSet field !== 63)) ||
  ((columnType field === MySqlTypes.MEDIUM_BLOB) && (characterSet field !== 63)) ||
  ((columnType field === MySqlTypes.LONG_BLOB) && (characterSet field !== 63)) ||
  ((columnType field === MySqlTypes.BLOB) && (characterSet field !== 63)).

(** [field.columnLength && field.columnLength > 1]: falsy when the length is
    absent or 0, else the comparison. *)
Definition columnLength_gt_1 (field : FieldPacket) : bool :=
  match columnLength field with
  | Some len => truthy len && (1 <? len)
  | None => false
  end.

Definition isBytes (field : FieldPacket) : bool :=
  ((columnType field === MySqlTypes.TINY_BLOB) && (characterSet field === 63)) ||
  ((columnType field === MySqlTypes.MEDIUM_BLOB) && (characterSet field === 63)) ||
  ((columnType field === MySqlTypes.LONG_BLOB) && (characterSet field === 63)) ||
  ((columnType field === MySqlTypes.BLOB) && (characterSet field === 63)) ||
  ((columnType field === MySqlTypes.BIT) && columnLength_gt_1 field).

Definition isBool (field : FieldPacket) : bool :=
  (columnType field === MySqlTypes.BIT) && (columnLength field === 1).

Definition isJson (field : FieldPacket) : bool :=
  columnType field === MySqlTypes.JSON.

Definition isEnum (field : FieldPacket) : bool :=
  (columnType field === MySqlTypes.ENUM) || truthy (hasFlag (flags field) MySqlFlags.ENUM).

Definition isNull (field : FieldPacket) : bool :=
  columnType field === MySqlTypes.NULL.

Definition fieldToColumnType (field : FieldPacket)
  : Completion UnsupportedNativeDataType ColumnType :=
  if isReal field then Return Numeric
  else if isFloat field then Return Float
  else if isDouble field then Return Double
  else if isInt32 field then Return Int32
  else if isInt64 field then Return Int64
  else if isDateTime field then Return DateTime
  else if isTime field then Return Time
  else if isDate field then Return Date
  else if isText field then Return Text
  else if isBytes field then Return Bytes
  else if isBool field then Return Boolean
  else if isJson field then Return Json
  else if isEnum field then Return Enum
  else if isNull field then Return Int32
  else Throw (new_UnsupportedNativeDataType field).

End Conversion.

(** ** src/mysql.ts *)

Module Mysql.
Import Conversion.

(** [Query] of the driver-adapter interface. *)
Module Query.
Record t : Type := {
  sql : string;
  args : list Value;
}.
End Query.

(** mysql2's [QueryOptions], the properties this adapter sets; a property
    left out of the object literal is [None]. *)
Module QueryOptions.
Record t : Type := {
  sql : string;
  values : list Value;
  rowsAsArray : option bool;
  typeCast : option TypeCast;
}.
End QueryOptions.

(** mysql2's [ResultSetHeader]. *)
Record ResultSetHeader : Type := {
  affectedRows : Z;
  fieldCount : Z;
  info : string;
  insertId : Z;
  serverStatus : Z;
  warningStatus : Z;
}.

(** [T extends ResultSetHeader | RowDataPacket[][]]: what the client resolves
    with, an array of rows (each an array, in array mode) or a header. *)
Inductive QueryData : Type :=
| RowData (packets : list (list Value))
| HeaderData (header : ResultSetHeader).

(** [type QueryResult<T> = { data: T; fields: FieldPacket[] }] *)
Record QueryResult : Type := {
  data : QueryData;
  fields : list FieldPacket;
}.

(** [type MySqlError = Error & { code?: number; state: string }] *)
Record MySqlError : Type := {
  code : option Z;
  message : string;
  state : string;
}.

(** A value the client rejects with, as the cast [e as MySqlError] reads it:
    [null] or [undefined] (on which [error?.code] is [undefined]), or an
    object. *)
Inductive Thrown : Type :=
| ThrownNullish
| ThrownError (error : MySqlError).

(** The error values of the driver-adapter interface this adapter builds;
    [kind] is the tag the object literal is written with. *)
Inductive Error : Type :=
| Error_UnsupportedNativeDataType (type : string)
| Error_Mysql (code : Z) (message : string) (state : string).

Definition kind (e : Error) : string :=
  match e with
  | Error_UnsupportedNativeDataType _ => "UnsupportedNativeDataType"
  | Error_Mysql _ _ _ => "Mysql"
  end.

(** [Result<T>] with its constructors [ok] and [err]. *)
Inductive Result (A : Type) : Type :=
| ok (value : A)
| err (error : Error).
Arguments ok {A} value.
Arguments err {A} error.

(** [res.map(f)] *)
Definition Result_map {A B : Type} (f : A -> B) (res : Result A) : Result B :=
  match res with
  | ok value => ok (f value)
  | err error => err error
  end.

(** [ResultSet] of the driver-adapter interface. *)
Record ResultSet : Type := {
  columnNames : list string;
  columnTypes : list ColumnType;
  rows : list (list Value);
  lastInsertId : option string;
}.

(** The client a queryable holds: the pool, or one connection borrowed from
    it. *)
Inductive Client : Type :=
| Pool
| PoolConnection (id : nat).

(** The calls made on the client, in order. *)
Inductive Event : Type :=
| EvQuery (client : Client) (options : QueryOptions.t)
| EvRelease (client : Client).

(** What [client.query] settles with: the pair [[data, fields]] ([fields]
    may be [undefined]), or a rejection. *)
Inductive Reply : Type :=
| Resolved (data : QueryData) (fields : option (list FieldPacket))
| Rejected (e : Thrown).

(** The database behind the client: its reply to a query may depend on every
    call made before. *)
Definition Server : Type := list Event -> Client -> QueryOptions.t -> Reply.

(** Awaited code: a state monad over the trace of client calls, with
    rejection. *)
Definition IO (A : Type) : Type := list Event -> Completion Thrown A * list Event.

Definition ret {A : Type} (a : A) : IO A := fun tr => (Return a, tr).

Definition throw {A : Type} (e : Thrown) : IO A := fun tr => (Throw e, tr).

Definition bind {A B : Type} (m : IO A) (k : A -> IO B) : IO B := fun tr =>
  match m tr with
  | (Return a, tr') => k a tr'
  | (Throw e, tr') => (Throw e, tr')
  end.

Definition try_catch {A : Type} (body : IO A) (handler : Thrown -> IO A) : IO A := fun tr =>
  match body tr with
  | (Return a, tr') => (Return a, tr')
  | (Throw e, tr') => handler e tr'
  end.

Declare Scope io_scope.
Delimit Scope io_scope with io.
Notation "x <- m ;; k" := (bind m (fun x => k))
  (at level 100, m at next level, right associativity) : io_scope.
Local Open Scope io_scope.

Section Queryable.

Variable server : Server.

(** [await this.client.query(options)] *)
Definition client_query (client : Client) (options : QueryOptions.t)
  : IO (QueryData * option (list FieldPacket)) := fun tr =>
  match server tr client options with
  | Resolved data fields => (Return (data, fields), tr ++ [EvQuery client options])
  | Rejected e => (Throw e, tr ++ [EvQuery client options])
  end.

(** [this.client.release()] *)
Definition client_release (client : Client) : IO unit := fun tr =>
  (Return tt, tr ++ [EvRelease client]).

Definition performIO (client : Client) (options : QueryOptions.t) : IO (Result QueryResult) :=
  try_catch
    (reply <- client_query client options ;;
     ret (ok {| data := fst reply; fields := default [] (snd reply) |}))
    (fun e =>
       match e with
       | ThrownError error =>
           match code error with
           | Some c =>
               if truthy c
               then ret (err (Error_Mysql c (message error) (state error)))
               else throw e
           | None => throw e
           end
       | ThrownNullish => throw e
       end).

(** The options object [queryRaw] passes to [performIO]. *)
Definition queryRaw_options (query : Query.t) : QueryOptions.t :=
  {| QueryOptions.sql := Query.sql query;
     QueryOptions.values := Query.args query;
     QueryOptions.rowsAsArray := Some true;
     QueryOptions.typeCast := Some Conversion.typeCast |}.

(** ["insertId" in data ? data.insertId.toString() : undefined] *)
Definition lastInsertId_of (data : QueryData) : option string :=
  match data with
  | HeaderData header => Some (toString (insertId header))
  | RowData _ => None
  end.

(** [Array.isArray(data) ? data : []] *)
Definition rows_of (data : QueryData) : list (list Value) :=
  match data with
  | RowData packets => packets
  | HeaderData _ => []
  end.

(** The part of [queryRaw] after the awaited [performIO] succeeded. The
    callback of [fields.map] throws nothing but an
    [UnsupportedNativeDataType], so the handler's [throw error] is never
    reached. *)
Definition queryRaw_marshal (value : QueryResult) : Result ResultSet :=
  let columnNames := map name (fields value) in
  let rows := rows_of (data value) in
  let lastInsertId := lastInsertId_of (data value) in
  match map_throw fieldToColumnType (fields value) with
  | Throw error => err (Error_UnsupportedNativeDataType (type error))
  | Return columnTypes =>
      ok {| columnNames := columnNames;
            columnTypes := columnTypes;
            rows := rows;
            lastInsertId := lastInsertId |}
  end.

Definition queryRaw (client : Client) (query : Query.t) : IO (Result ResultSet) :=
  res <- performIO client (queryRaw_options query) ;;
  match res with
  | err error => ret (err error)
  | ok value => ret (queryRaw_marshal value)
  end.

(** The options object [executeRaw] passes to [performIO]. *)
Definition executeRaw_options (query : Query.t) : QueryOptions.t :=
  {| QueryOptions.sql := Query.sql query;
     QueryOptions.values := Query.args query;
     QueryOptions.rowsAsArray := None;
     QueryOptions.typeCast := None |}.

(** [data.affectedRows], read from a value typed [ResultSetHeader]; an array
    has no such property. *)
Definition affectedRows_of (data : QueryData) : option Z :=
  match data with
  | HeaderData header => Some (affectedRows header)
  | RowData _ => None
  end.

Definition executeRaw (client : Client) (query : Query.t) : IO (Result (option Z)) :=
  res <- performIO client (executeRaw_options query) ;;
  match res with
  | err error => ret (err error)
  | ok value => ret (Result_map (fun v => affectedRows_of (data v)) (ok value))
  end.

(** [TransactionOptions] *)
Record TransactionOptions : Type := {
  usePhantomQuery : bool;
}.

(** [class MySqlTransaction extends MySqlQueryable<PoolConnection>] *)
Record MySqlTransaction : Type := {
  client : Client;
  options : TransactionOptions;
}.

Definition commit (this : MySqlTransaction) : IO (Result unit) :=
  _ <- client_release (client this) ;;
  ret (ok tt).

Definition rollback (this : MySqlTransaction) : IO (Result unit) :=
  _ <- client_release (client this) ;;
  ret (ok tt).

End Queryable.

End Mysql.

(** ** src/mysql.ts, class [PrismaMySql] *)

Module Adapter.
Import Conversion Mysql.

(** [type PrismaMySqlOptions = { schema?: string }] *)
Record PrismaMySqlOptions : Type := {
  schema : option string;
}.

(** [ConnectionInfo] of the driver-adapter interface, the property set here. *)
Record ConnectionInfo : Type := {
  schemaName : option string;
}.

(** [class PrismaMySql extends MySqlQueryable<Pool>]: its client is the
    pool; [options] is an optional constructor argument. *)
Record PrismaMySql : Type := {
  options : option PrismaMySqlOptions;
}.

(** [ok({ schemaName: this.options?.schema })] *)
Definition getConnectionInfo (this : PrismaMySql) : Result ConnectionInfo :=
  ok {| schemaName :=
          match options this with
          | Some given => schema given
          | None => None
          end |}.

(** What [pool.getConnection()] settles with, given the calls made so far:
    a connection, or a rejection. *)
Definition Acquire : Type := list Event -> Completion Thrown nat.

(** [startTransaction]: the awaited [getConnection] is not inside a [try],
    so its rejection is the rejection of [startTransaction]. Acquiring is
    neither a query nor a release: the trace of those is unchanged. *)
Definition startTransaction (getConnection : Acquire) : IO (Result MySqlTransaction) :=
  fun tr =>
    match getConnection tr with
    | Return id =>
        (Return (ok {| client := PoolConnection id;
                       Mysql.options := {| usePhantomQuery := false |} |}), tr)
    | Throw e => (Throw e, tr)
    end.

End Adapter.

(** ** Vocabulary of the statements, and sample inputs *)

Import Conversion Mysql.
Local Open Scope io_scope.

(** [error?.code] of a thrown value. *)
Definition optional_code (e : Thrown) : option Z :=
  match e with
  | ThrownNullish => None
  | ThrownError error => code error
  end.

(** The descriptor classifies: [fieldToColumnType] returns a type. *)
Definition classifies (field : FieldPacket) : Prop :=
  exists t, fieldToColumnType field = Return t.

(** The descriptor is rejected: [fieldToColumnType] throws. *)
Definition unclassifiable (field : FieldPacket) : Prop :=
  exists e, fieldToColumnType field = Throw e.

Definition Client_eqb (a b : Client) : bool :=
  match a, b with
  | Pool, Pool => true
  | PoolConnection i, PoolConnection j => Nat.eqb i j
  | _, _ => false
  end.

(** The number of [release] calls made on [client] in a trace. *)
Fixpoint releases (client : Client) (tr : list Event) : nat :=
  match tr with
  | [] => 0%nat
  | EvRelease c :: rest =>
      if Client_eqb c client then S (releases client rest) else releases client rest
  | EvQuery _ _ :: rest => releases client rest
  end.



Definition sample_field (code : option Z) (mask : Z) (charset len : option Z) (column : string)
  : FieldPacket :=
  {| catalog := "def"; schema := "shop"; name := column; orgName := column;
     table := "orders"; orgTable := "orders";
     characterSet := charset; columnLength := len; columnType := code;
     flags := mask; decimals := 0 |}.

Definition sample_query : Query.t :=
  {| Query.sql := "SELECT 1"; Query.args := [] |}.

Definition sample_insert : Query.t :=
  {| Query.sql := "INSERT INTO orders (label) VALUES (?)"; Query.args := [VString "first"] |}.

(** A database that rejects every query with [e]. *)
Definition rejecting_server (e : Thrown) : Server := fun _ _ _ => Rejected e.

(** A database that answers every query with the same data and fields. *)
Definition resolving_server (data : QueryData) (fields : option (list FieldPacket)) : Server :=
  fun _ _ _ => Resolved data fields.

Definition access_denied : MySqlError :=
  {| code := Some 1045; Mysql.message := "Access denied"; state := "28000" |}.

Definition inserted_header (id : Z) : ResultSetHeader :=
  {| affectedRows := 1; fieldCount := 0; info := ""; insertId := id;
     serverStatus := 2; warningStatus := 0 |}.

(** ** Proof automation *)

(** Expose the rule chain of the classifier. *)
Ltac unfold_classifier :=
  unfold fieldToColumnType, isReal, isFloat, isDouble, isInt32, isInt64,
    isDateTime, isTime, isDate, isText, isBytes, isBool, isJson, isEnum,
    isNull, columnLength_gt_1.

(** A flag constant lies in [0, 2^31). *)
Ltac flag_range := vm_compute; split; congruence.

(** BIT with a declared length of at least 1: Boolean at 1, Bytes above. *)
Ltac classify_bit Hbit Hc :=
  idtac;
  let len := fresh "len" in
  let Hlen := fresh "Hlen" in
  let Hge := fresh "Hge" in
  destruct (Hbit eq_refl) as [len [Hlen Hge]];
  unfold_classifier; rewrite Hc, Hlen; cbn; unfold truthy;
  destruct (Z.eqb_spec len 1); [subst; cbn; eauto |];
  destruct (Z.ltb_spec 1 len); [| lia];
  destruct (Z.eqb_spec len 0); [lia |]; cbn; eauto.

(** The rules of the classifier that read the type code first: every rule
    but [isEnum], in the order [fieldToColumnType] tries them. *)
Definition code_rules : list (FieldPacket -> bool) :=
  [isReal; isFloat; isDouble; isInt32; isInt64; isDateTime; isTime; isDate;
   isText; isBytes; isBool; isJson; isNull].

(** How a caller ends a transaction. *)
Definition finish (by_commit : bool) (this : MySqlTransaction) : IO (Result unit) :=
  if by_commit then commit this else rollback this.

(** A pool that hands out the connection [id]. *)
Definition lending_pool (id : nat) : Adapter.Acquire := fun _ => Return id.

(** A pool that rejects with [e]. *)
Definition failing_pool (e : Thrown) : Adapter.Acquire := fun _ => Throw e.

(** The caller's sequence: start a transaction, then finish it. *)
Definition start_then_finish (getConnection : Adapter.Acquire) (by_commit : bool)
  : IO (Result unit) :=
  res <- Adapter.startTransaction getConnection ;;
  match res with
  | ok transaction => finish by_commit transaction
  | err error => ret (err error)
  end.

(** Agreement of two descriptors on a rule, from agreement on what the rule
    reads. *)
Ltac same_rule rule f g Hct Hcs Hlen Hunsigned :=
  let E := fresh "E" in
  assert (rule f = rule g) as E
    by (unfold rule, columnLength_gt_1; rewrite ?Hunsigned, ?Hct, ?Hcs, ?Hlen; reflexivity);
  rewrite E; clear E.


(** Expose the rules everywhere, hypotheses included. *)
Ltac unfold_rules :=
  unfold isReal, isFloat, isDouble, isInt32, isInt64, isDateTime, isTime,
    isDate, isText, isBytes, isBool, isJson, isEnum, isNull,
    columnLength_gt_1 in *.

(** * Properties *)

(** ** The [&] operator on flag masks *)

Section Bits.

Lemma to_int32_mod (n : Z) : to_int32 n mod 2 ^ 32 = n mod 2 ^ 32.
Proof.
  unfold to_int32.
  replace ((n + 2 ^ 31) mod 2 ^ 32 - 2 ^ 31)
    with (n + (- ((n + 2 ^ 31) / 2 ^ 32)) * 2 ^ 32).
  - apply Z_mod_plus_full.
  - pose proof (Z.div_mod (n + 2 ^ 31) (2 ^ 32) ltac:(lia)). lia.
Qed.

Lemma to_int32_testbit (n i : Z) : i < 32 -> Z.testbit (to_int32 n) i = Z.testbit n i.
Proof.
  intros Hi.
  rewrite <- (Z.mod_pow2_bits_low (to_int32 n) 32 i) by lia.
  rewrite to_int32_mod.
  apply Z.mod_pow2_bits_low; lia.
Qed.

Lemma to_int32_small (t : Z) : 0 <= t < 2 ^ 31 -> to_int32 t = t.
Proof.
  intros Ht. unfold to_int32. rewrite Z.mod_small; lia.
Qed.

(** On a mask below 2^31 the 32-bit truncation of [&] is invisible. *)
Lemma hasFlag_land (flags target : Z) :
  0 <= target < 2 ^ 31 -> hasFlag flags target = Z.land flags target.
Proof.
  intros Ht. unfold hasFlag, js_bitand.
  rewrite (to_int32_small target) by exact Ht.
  apply Z.bits_inj'. intros i Hi.
  rewrite !Z.land_spec.
  destruct (Z_lt_ge_dec i 32) as [Hlt | Hge].
  - now rewrite to_int32_testbit.
  - assert (Z.testbit target i = false) as ->.
    { rewrite <- (Z.mod_small target (2 ^ 31)) by lia.
      apply Z.mod_pow2_bits_high. lia. }
    now rewrite !andb_false_r.
Qed.

Lemma hasFlag_clear (flags target : Z) :
  0 <= target < 2 ^ 31 -> Z.land flags target = 0 -> truthy (hasFlag flags target) = false.
Proof.
  intros Ht H0. rewrite hasFlag_land, H0 by exact Ht. reflexivity.
Qed.

Lemma hasFlag_set (flags target : Z) :
  0 <= target < 2 ^ 31 -> Z.land flags target <> 0 -> truthy (hasFlag flags target) = true.
Proof.
  intros Ht Hne. rewrite hasFlag_land by exact Ht.
  unfold truthy. apply negb_true_iff, Z.eqb_neq, Hne.
Qed.

End Bits.

(** ** The classifier *)

Section Classifier.

Variable f : FieldPacket.

(** C6. Integer codes: TINY, SHORT and YEAR are Int32 whatever the flags;
    LONG and INT24 are Int32 when the UNSIGNED bit (32) of the flags is
    clear and Int64 when it is set; LONGLONG is Int64 whatever the flags. *)
Theorem integer_codes_classification :
  (columnType f = Some MySqlTypes.TINY \/
   columnType f = Some MySqlTypes.SHORT \/
   columnType f = Some MySqlTypes.YEAR ->
   fieldToColumnType f = Return Int32) /\
  (columnType f = Some MySqlTypes.LONG \/ columnType f = Some MySqlTypes.INT24 ->
   (Z.land (flags f) MySqlFlags.UNSIGNED = 0 -> fieldToColumnType f = Return Int32) /\
   (Z.land (flags f) MySqlFlags.UNSIGNED <> 0 -> fieldToColumnType f = Return Int64)) /\
  (columnType f = Some MySqlTypes.LONGLONG -> fieldToColumnType f = Return Int64).
Proof.
  split; [| split].
  - intros [H | [H | H]]; unfold_classifier; rewrite H; reflexivity.
  - intros H; split; intros Hflag.
    + apply hasFlag_clear in Hflag; [| flag_range].
      destruct H as [H | H]; unfold_classifier; rewrite H, Hflag; reflexivity.
    + apply hasFlag_set in Hflag; [| flag_range].
      destruct H as [H | H]; unfold_classifier; rewrite H, Hflag; reflexivity.
  - intros H. unfold_classifier. rewrite H. reflexivity.
Qed.


Lemma strict_eq_true (x : option Z) (c : Z) : (x === c) = true <-> x = Some c.
Proof.
  destruct x as [v |]; simpl.
  - rewrite Z.eqb_eq. split; congruence.
  - split; discriminate.
Qed.

Lemma strict_eq_false (x : option Z) (c : Z) : (x === c) = false <-> x <> Some c.
Proof.
  rewrite <- strict_eq_true. destruct (x === c); split; congruence.
Qed.

(** C7. The BLOB family is Bytes under character set 63 and Text under any
    other (or no) character set; VARCHAR, VAR_STRING and STRING are Text
    whatever the character set. *)
Theorem blob_and_string_codes_classification :
  (columnType f = Some MySqlTypes.TINY_BLOB \/
   columnType f = Some MySqlTypes.MEDIUM_BLOB \/
   columnType f = Some MySqlTypes.LONG_BLOB \/
   columnType f = Some MySqlTypes.BLOB ->
   (characterSet f = Some 63 -> fieldToColumnType f = Return Bytes) /\
   (characterSet f <> Some 63 -> fieldToColumnType f = Return Text)) /\
  (columnType f = Some MySqlTypes.VARCHAR \/
   columnType f = Some MySqlTypes.VAR_STRING \/
   columnType f = Some MySqlTypes.STRING ->
   fieldToColumnType f = Return Text).
Proof.
  split.
  - intros H; split; intros Hcs.
    + destruct H as [H | [H | [H | H]]];
        unfold_classifier; rewrite H, Hcs; reflexivity.
    + apply strict_eq_false in Hcs.
      destruct H as [H | [H | [H | H]]];
        unfold_classifier; rewrite H, Hcs; reflexivity.
  - intros [H | [H | H]]; unfold_classifier; rewrite H; reflexivity.
Qed.

(** C3, as the code has it. BIT of declared length 1 is Boolean and of
    declared length 2 is Bytes; BIT of declared length 0 is never Bytes: it
    passes the Bytes and Boolean rules and is rejected under the name BIT
    unless the ENUM flag bit (256) makes it an Enum. *)
Theorem bit_classification :
  columnType f = Some MySqlTypes.BIT ->
  (columnLength f = Some 1 -> fieldToColumnType f = Return Boolean) /\
  (columnLength f = Some 2 -> fieldToColumnType f = Return Bytes) /\
  (columnLength f = Some 0 ->
   (Z.land (flags f) MySqlFlags.ENUM = 0 ->
    fieldToColumnType f =
    Throw {| type := "BIT"; Conversion.message := "Unsupported native data type: BIT" |}) /\
   (Z.land (flags f) MySqlFlags.ENUM <> 0 -> fieldToColumnType f = Return Enum)).
Proof.
  intros H. split; [| split].
  - intros Hlen. unfold_classifier. rewrite H, Hlen. reflexivity.
  - intros Hlen. unfold_classifier. rewrite H, Hlen. reflexivity.
  - intros Hlen. split; intros Hflag.
    + apply hasFlag_clear in Hflag; [| flag_range].
      unfold_classifier. unfold new_UnsupportedNativeDataType.
      rewrite H, Hlen, Hflag. reflexivity.
    + apply hasFlag_set in Hflag; [| flag_range].
      unfold_classifier. rewrite H, Hlen, Hflag. reflexivity.
Qed.

End Classifier.

(** C10. Two descriptors that agree on [columnType], [flags], [characterSet]
    and [columnLength] classify alike, whatever their names, tables or other
    attributes: the same type, or the same exception. *)
Theorem classification_reads_four_attributes (f g : FieldPacket) :
  columnType f = columnType g ->
  flags f = flags g ->
  characterSet f = characterSet g ->
  columnLength f = columnLength g ->
  fieldToColumnType f = fieldToColumnType g.
Proof.
  intros Hct Hfl Hcs Hlen.
  unfold_classifier. unfold new_UnsupportedNativeDataType.
  rewrite Hct, Hfl, Hcs, Hlen. reflexivity.
Qed.

(** ** Which descriptors classify *)

Lemma MySqlCodes_lookup (c : Z) (code_name : string) :
  MySqlCodes !! c = Some code_name ->
  In c [0x00; 0x01; 0x02; 0x03; 0x04; 0x05; 0x06; 0x07; 0x08; 0x09; 0x0a; 0x0b;
        0x0c; 0x0d; 0x0e; 0x0f; 0x10; 0xf5; 0xf6; 0xf7; 0xf8; 0xf9; 0xfa; 0xfb;
        0xfc; 0xfd; 0xfe; 0xff].
Proof.
  intros H. unfold MySqlCodes in H.
  apply elem_of_list_to_map_2 in H.
  apply list_elem_of_In in H.
  apply (in_map fst) in H. exact H.
Qed.

Lemma isEnum_flag (f : FieldPacket) :
  Z.land (flags f) MySqlFlags.ENUM <> 0 -> isEnum f = true.
Proof.
  intros Hflag. apply hasFlag_set in Hflag; [| flag_range].
  unfold isEnum. rewrite Hflag. apply orb_true_r.
Qed.

(** Outside the name table no code rule matches. *)
Lemma unlisted_code_rules (f : FieldPacket) :
  (forall c, columnType f = Some c -> MySqlCodes !! c = None) ->
  forall k code_name, MySqlCodes !! k = Some code_name -> (columnType f === k) = false.
Proof.
  intros Hout k code_name Hk. apply strict_eq_false. intros Hc.
  apply Hout in Hc. congruence.
Qed.

(** The name table has 28 entries. *)
Lemma MySqlCodes_size : size MySqlCodes = 28%nat.
Proof.
  vm_compute. reflexivity.
Qed.

(** C1, as the code has it. A descriptor whose code is a key of the name
    table other than SET and GEOMETRY classifies, a BIT one provided its
    declared length is at least 1; and any descriptor whose ENUM flag bit
    (256) is set classifies, as Enum wherever no earlier rule matches: for
    the codes ENUM, NULL, SET and GEOMETRY, for BIT with a declared length
    that is absent or below 1, and for a code that is absent or not a key of
    the table. With that bit clear, SET and GEOMETRY are rejected under their
    own names, and a code that is absent or not a key of the table is
    rejected under the name Unknown. *)
Theorem classification_domain (f : FieldPacket) :
  (forall c,
     columnType f = Some c ->
     is_Some (MySqlCodes !! c) ->
     c <> MySqlTypes.SET ->
     c <> MySqlTypes.GEOMETRY ->
     (c = MySqlTypes.BIT -> exists len, columnLength f = Some len /\ 1 <= len) ->
     exists t, fieldToColumnType f = Return t) /\
  (Z.land (flags f) MySqlFlags.ENUM <> 0 ->
   (exists t, fieldToColumnType f = Return t) /\
   (columnType f = Some MySqlTypes.ENUM \/
    columnType f = Some MySqlTypes.NULL \/
    columnType f = Some MySqlTypes.SET \/
    columnType f = Some MySqlTypes.GEOMETRY \/
    (columnType f = Some MySqlTypes.BIT /\
     forall len, columnLength f = Some len -> len < 1) \/
    (forall c, columnType f = Some c -> MySqlCodes !! c = None) ->
    fieldToColumnType f = Return Enum)) /\
  (Z.land (flags f) MySqlFlags.ENUM = 0 ->
   (columnType f = Some MySqlTypes.SET ->
    fieldToColumnType f =
    Throw {| type := "SET"; Conversion.message := "Unsupported native data type: SET" |}) /\
   (columnType f = Some MySqlTypes.GEOMETRY ->
    fieldToColumnType f =
    Throw {| type := "GEOMETRY";
             Conversion.message := "Unsupported native data type: GEOMETRY" |}) /\
   ((forall c, columnType f = Some c -> MySqlCodes !! c = None) ->
    fieldToColumnType f =
    Throw {| type := "Unknown";
             Conversion.message := "Unsupported native data type: Unknown" |})).
Proof.
  split; [| split].
  - intros c Hc [code_name Hname] Hset Hgeo Hbit.
    apply MySqlCodes_lookup in Hname. simpl in Hname.
    repeat (destruct Hname as [<- | Hname];
      [ first
          [ solve [exfalso; apply Hset; reflexivity]
          | solve [exfalso; apply Hgeo; reflexivity]
          | solve [classify_bit Hbit Hc]
          | solve [unfold_classifier; rewrite Hc;
                   destruct (truthy (hasFlag (flags f) MySqlFlags.UNSIGNED));
                   destruct (truthy (hasFlag (flags f) MySqlFlags.ENUM));
                   destruct (characterSet f === 63);
                   cbn; eauto] ]
      | ]).
    contradiction.
  - intros Hflag. split.
    + apply isEnum_flag in Hflag.
      unfold fieldToColumnType. rewrite Hflag.
      repeat case_match; eauto.
    + apply hasFlag_set in Hflag; [| flag_range].
      intros [Hc | [Hc | [Hc | [Hc | [[Hc Hlen] | Hout]]]]];
        try (unfold_classifier; rewrite Hc, Hflag; reflexivity).
      * unfold_classifier. rewrite Hc, Hflag.
        destruct (columnLength f) as [len |]; [| reflexivity].
        specialize (Hlen len eq_refl). simpl.
        destruct (Z.ltb_spec 1 len); [lia |].
        destruct (Z.eqb_spec len 1); [lia |].
        rewrite andb_false_r. reflexivity.
      * pose proof (unlisted_code_rules f Hout) as Hrule.
        unfold_classifier. rewrite Hflag.
        repeat match goal with
               | |- context [columnType f === ?k] =>
                   rewrite (Hrule k _ ltac:(vm_compute; reflexivity))
               end.
        reflexivity.
  - intros Hflag. apply hasFlag_clear in Hflag; [| flag_range].
    split; [| split].
    + intros Hc. unfold_classifier. unfold new_UnsupportedNativeDataType.
      rewrite Hc, Hflag. reflexivity.
    + intros Hc. unfold_classifier. unfold new_UnsupportedNativeDataType.
      rewrite Hc, Hflag. reflexivity.
    + intros Hout.
      pose proof (unlisted_code_rules f Hout) as Hrule.
      unfold_classifier. unfold new_UnsupportedNativeDataType.
      rewrite Hflag.
      repeat match goal with
             | |- context [columnType f === ?k] =>
                 rewrite (Hrule k _ ltac:(vm_compute; reflexivity))
             end.
      destruct (columnType f) as [c |] eqn:Hc; [| reflexivity].
      rewrite (Hout c eq_refl). destruct (truthy c); reflexivity.
Qed.

(** ** The queryable: what reaches the client, and what comes back *)

Section Marshalling.

Variable server : Server.
Variable client : Client.
Variable tr : list Event.

Lemma performIO_resolved (options : QueryOptions.t) data fields :
  server tr client options = Resolved data fields ->
  performIO server client options tr =
  (Return (ok {| data := data; fields := default [] fields |}),
   tr ++ [EvQuery client options]).
Proof.
  intros H. unfold performIO, try_catch, bind, client_query, ret.
  rewrite H. reflexivity.
Qed.

Lemma performIO_translated (options : QueryOptions.t) error c :
  server tr client options = Rejected (ThrownError error) ->
  code error = Some c ->
  c <> 0 ->
  performIO server client options tr =
  (Return (err (Error_Mysql c (Mysql.message error) (state error))),
   tr ++ [EvQuery client options]).
Proof.
  intros H Hcode Hc. unfold performIO, try_catch, bind, client_query, ret.
  rewrite H, Hcode. unfold truthy.
  apply Z.eqb_neq in Hc. rewrite Hc. reflexivity.
Qed.

Lemma performIO_rethrown (options : QueryOptions.t) e :
  server tr client options = Rejected e ->
  optional_code e = None \/ optional_code e = Some 0 ->
  performIO server client options tr = (Throw e, tr ++ [EvQuery client options]).
Proof.
  intros H Hcode. unfold performIO, try_catch, bind, client_query, throw.
  rewrite H. destruct e as [| error]; [reflexivity |].
  simpl in Hcode. destruct Hcode as [-> | ->]; reflexivity.
Qed.

(** The client is called once per operation, whatever it answers. *)
Lemma performIO_trace (options : QueryOptions.t) :
  snd (performIO server client options tr) = tr ++ [EvQuery client options].
Proof.
  unfold performIO, try_catch, bind, client_query, ret, throw.
  destruct (server tr client options) as [data fields | [| error]]; try reflexivity.
  destruct (code error) as [c |]; [| reflexivity].
  destruct (truthy c); reflexivity.
Qed.

Lemma queryRaw_unfold (query : Query.t) :
  queryRaw server client query tr =
  match performIO server client (queryRaw_options query) tr with
  | (Return (ok value), tr') => (Return (queryRaw_marshal value), tr')
  | (Return (err error), tr') => (Return (err error), tr')
  | (Throw e, tr') => (Throw e, tr')
  end.
Proof.
  unfold queryRaw, bind, ret.
  destruct (performIO server client (queryRaw_options query) tr) as [[[value | error] | e] tr'];
    reflexivity.
Qed.

Lemma executeRaw_unfold (query : Query.t) :
  executeRaw server client query tr =
  match performIO server client (executeRaw_options query) tr with
  | (Return (ok value), tr') => (Return (ok (affectedRows_of (data value))), tr')
  | (Return (err error), tr') => (Return (err error), tr')
  | (Throw e, tr') => (Throw e, tr')
  end.
Proof.
  unfold executeRaw, bind, ret.
  destruct (performIO server client (executeRaw_options query) tr) as [[[value | error] | e] tr'];
    reflexivity.
Qed.

(** C2, as the code has it. A rejection whose [code] is present and not 0
    comes back as the error value of kind ["Mysql"] with the rejection's
    code, message and state; a rejection with no code, with code 0, or that
    is [null] or [undefined], is thrown again unchanged. Both operations. *)
Theorem driver_failure_translation (query : Query.t) (e : Thrown) :
  (server tr client (queryRaw_options query) = Rejected e ->
   (forall error c,
      e = ThrownError error -> code error = Some c -> c <> 0 ->
      exists r,
        fst (queryRaw server client query tr) = Return (err r) /\
        r = Error_Mysql c (Mysql.message error) (state error) /\
        kind r = "Mysql") /\
   (optional_code e = None \/ optional_code e = Some 0 ->
    fst (queryRaw server client query tr) = Throw e)) /\
  (server tr client (executeRaw_options query) = Rejected e ->
   (forall error c,
      e = ThrownError error -> code error = Some c -> c <> 0 ->
      exists r,
        fst (executeRaw server client query tr) = Return (err r) /\
        r = Error_Mysql c (Mysql.message error) (state error) /\
        kind r = "Mysql") /\
   (optional_code e = None \/ optional_code e = Some 0 ->
    fst (executeRaw server client query tr) = Throw e)).
Proof.
  split; intros Hreply; split.
  - intros error c -> Hcode Hc. eexists. rewrite queryRaw_unfold.
    rewrite (performIO_translated _ error c Hreply Hcode Hc). simpl. auto.
  - intros Hcode. rewrite queryRaw_unfold.
    rewrite (performIO_rethrown _ e Hreply Hcode). reflexivity.
  - intros error c -> Hcode Hc. eexists. rewrite executeRaw_unfold.
    rewrite (performIO_translated _ error c Hreply Hcode Hc). simpl. auto.
  - intros Hcode. rewrite executeRaw_unfold.
    rewrite (performIO_rethrown _ e Hreply Hcode). reflexivity.
Qed.

(** The one call each operation makes on the client, and its options:
    [queryRaw] asks for array mode and installs [typeCast]; [executeRaw]
    passes the statement and its values and nothing else. *)
Lemma client_call_options (query : Query.t) :
  snd (queryRaw server client query tr) =
  tr ++ [EvQuery client
           {| QueryOptions.sql := Query.sql query;
              QueryOptions.values := Query.args query;
              QueryOptions.rowsAsArray := Some true;
              QueryOptions.typeCast := Some typeCast |}] /\
  snd (executeRaw server client query tr) =
  tr ++ [EvQuery client
           {| QueryOptions.sql := Query.sql query;
              QueryOptions.values := Query.args query;
              QueryOptions.rowsAsArray := None;
              QueryOptions.typeCast := None |}].
Proof.
  split.
  - rewrite queryRaw_unfold.
    pose proof (performIO_trace (queryRaw_options query)) as Htrace.
    destruct (performIO server client (queryRaw_options query) tr)
      as [[[value | error] | e] tr']; exact Htrace.
  - rewrite executeRaw_unfold.
    pose proof (performIO_trace (executeRaw_options query)) as Htrace.
    destruct (performIO server client (executeRaw_options query) tr)
      as [[[value | error] | e] tr']; exact Htrace.
Qed.

End Marshalling.

Lemma typeCast_policy (field : TypeCastField.t) (next : unit -> Value) :
  (In (TypeCastField.type field) ["TIMESTAMP"; "DATETIME"; "DATE"; "LONGLONG"] ->
   typeCast field next = field_string field) /\
  (~ In (TypeCastField.type field) ["TIMESTAMP"; "DATETIME"; "DATE"; "LONGLONG"] ->
   typeCast field next = next tt).
Proof.
  unfold typeCast. split.
  - intros Hin. simpl in Hin.
    destruct Hin as [<- | [<- | [<- | [<- | []]]]]; reflexivity.
  - intros Hout. simpl in Hout.
    repeat match goal with
           | |- context [String.eqb ?a ?b] =>
               destruct (String.eqb_spec a b) as [Heq | _]; [rewrite Heq in Hout; tauto |]
           end.
    reflexivity.
Qed.

(** C4, as the code has it. The policy [typeCast] returns the field's text
    for the type names TIMESTAMP, DATETIME, DATE and LONGLONG and the default
    decoder's value for every other name. [queryRaw] hands the client that
    policy (and asks for array mode) in the one call it makes; [executeRaw]
    hands the client the statement and its values only, no policy. *)
Theorem field_decoding_policy :
  (forall (field : TypeCastField.t) (next : unit -> Value),
     (In (TypeCastField.type field) ["TIMESTAMP"; "DATETIME"; "DATE"; "LONGLONG"] ->
      typeCast field next = field_string field) /\
     (~ In (TypeCastField.type field) ["TIMESTAMP"; "DATETIME"; "DATE"; "LONGLONG"] ->
      typeCast field next = next tt)) /\
  (forall (server : Server) (client : Client) (tr : list Event) (query : Query.t),
     snd (queryRaw server client query tr) =
     tr ++ [EvQuery client
              {| QueryOptions.sql := Query.sql query;
                 QueryOptions.values := Query.args query;
                 QueryOptions.rowsAsArray := Some true;
                 QueryOptions.typeCast := Some typeCast |}] /\
     snd (executeRaw server client query tr) =
     tr ++ [EvQuery client
              {| QueryOptions.sql := Query.sql query;
                 QueryOptions.values := Query.args query;
                 QueryOptions.rowsAsArray := None;
                 QueryOptions.typeCast := None |}]).
Proof.
  split.
  - exact typeCast_policy.
  - exact client_call_options.
Qed.

(** ** Classification inside [queryRaw] *)

Lemma map_throw_all_return {E A B : Type} (f : A -> Completion E B) (l : list A) :
  Forall (fun x => exists y, f x = Return y) l ->
  exists ys, map_throw f l = Return ys /\ length ys = length l.
Proof.
  induction 1 as [| x rest [y Hy] _ [ys [Hys Hlen]]]; simpl.
  - exists []. auto.
  - rewrite Hy, Hys. exists (y :: ys). simpl. auto.
Qed.

(** The map stops at the first element on which the callback throws. *)
Lemma map_throw_first_throw {E A B : Type} (f : A -> Completion E B) (l : list A) :
  Exists (fun x => exists e, f x = Throw e) l ->
  exists pre x post e,
    l = pre ++ x :: post /\
    Forall (fun x => exists y, f x = Return y) pre /\
    f x = Throw e /\
    map_throw f l = Throw e.
Proof.
  induction l as [| a rest IH]; intros Hex.
  - inversion Hex.
  - destruct (f a) as [y | e] eqn:Hfa.
    + assert (Exists (fun x => exists e, f x = Throw e) rest) as Hrest.
      { inversion Hex as [? ? [e He] | ? ? Htail]; subst; [congruence | exact Htail]. }
      destruct (IH Hrest) as [pre [x [post [e [-> [Hpre [Hx Hmap]]]]]]].
      exists (a :: pre), x, post, e. repeat split.
      * constructor; eauto.
      * exact Hx.
      * simpl. rewrite Hfa, Hmap. reflexivity.
    + exists [], a, rest, e. repeat split.
      * constructor.
      * exact Hfa.
      * simpl. rewrite Hfa. reflexivity.
Qed.

Section QueryRaw.

Variable server : Server.
Variable client : Client.
Variable tr : list Event.
Variable query : Query.t.

(** C5. When the client resolves and some returned field is unclassifiable,
    [queryRaw] returns the error value of kind ["UnsupportedNativeDataType"]
    whose type is the one the first such field was rejected with, and so no
    result set. *)
Theorem unclassifiable_column_fails_query data fields :
  server tr client (queryRaw_options query) = Resolved data fields ->
  Exists unclassifiable (default [] fields) ->
  exists pre field post e,
    default [] fields = pre ++ field :: post /\
    Forall classifies pre /\
    fieldToColumnType field = Throw e /\
    fst (queryRaw server client query tr) =
    Return (err (Error_UnsupportedNativeDataType (type e))) /\
    kind (Error_UnsupportedNativeDataType (type e)) = "UnsupportedNativeDataType" /\
    forall result_set, fst (queryRaw server client query tr) <> Return (ok result_set).
Proof.
  intros Hreply Hex.
  destruct (map_throw_first_throw fieldToColumnType _ Hex)
    as [pre [field [post [e [Hsplit [Hpre [Hfield Hmap]]]]]]].
  exists pre, field, post, e.
  assert (fst (queryRaw server client query tr) =
          Return (err (Error_UnsupportedNativeDataType (type e)))) as Hres.
  { rewrite queryRaw_unfold, (performIO_resolved _ _ _ _ _ _ Hreply).
    unfold queryRaw_marshal. simpl. rewrite Hmap. reflexivity. }
  repeat split; try assumption.
  intros result_set. rewrite Hres. discriminate.
Qed.

End QueryRaw.

(** ** The generated identifier *)











(** [toString] at numbers on both sides of 2^53 and of 10^21. *)
Lemma toString_samples :
  toString (42) = "42" /\
  toString (2 ^ 53) = "9007199254740992" /\
  toString (2 ^ 53 + 1) = "9007199254740992" /\
  toString (2 ^ 64 - 1) = "18446744073709552000" /\
  toString (2 ^ 64) = "18446744073709552000" /\
  toString (10 ^ 21 - 65536) = "1e+21" /\
  toString (10 ^ 21) = "1e+21" /\
  toString (2 ^ 100) = "1.2676506002282294e+30" /\
  toString (- (2 ^ 70)) = "-1.1805916207174113e+21" /\
  toString (2 ^ 1024) = "Infinity".
Proof.
  repeat split; vm_compute; reflexivity.
Qed.

Section LastInsertId.

Variable server : Server.
Variable client : Client.
Variable tr : list Event.
Variable query : Query.t.


End LastInsertId.

(** ** Transactions *)

Lemma Client_eqb_refl (c : Client) : Client_eqb c c = true.
Proof.
  destruct c; simpl; [reflexivity | apply Nat.eqb_refl].
Qed.

Lemma releases_app (c : Client) (tr1 tr2 : list Event) :
  releases c (tr1 ++ tr2) = (releases c tr1 + releases c tr2)%nat.
Proof.
  induction tr1 as [| ev rest IH]; simpl; [reflexivity |].
  destruct ev as [c' options | c']; [exact IH |].
  destruct (Client_eqb c' c); simpl; rewrite IH; reflexivity.
Qed.

(** C9. Committing a transaction makes one call on its connection, a
    [release], and returns [ok(undefined)]; so does rolling back. The count
    of releases of the connection grows by exactly one either way. *)
Theorem commit_and_rollback_release_once (this : MySqlTransaction) (tr : list Event) :
  commit this tr = (Return (ok tt), tr ++ [EvRelease (Mysql.client this)]) /\
  releases (Mysql.client this) (snd (commit this tr)) = S (releases (Mysql.client this) tr) /\
  rollback this tr = (Return (ok tt), tr ++ [EvRelease (Mysql.client this)]) /\
  releases (Mysql.client this) (snd (rollback this tr)) = S (releases (Mysql.client this) tr).
Proof.
  assert (releases (Mysql.client this) (tr ++ [EvRelease (Mysql.client this)]) =
          S (releases (Mysql.client this) tr)) as Hcount.
  { rewrite releases_app. simpl. rewrite Client_eqb_refl. lia. }
  repeat split; try reflexivity; exact Hcount.
Qed.

(** ** The statements at sample inputs *)

(** C1 at four descriptors: a JSON column, a code outside the table with
    the ENUM flag set, a SET column with the ENUM flag set, and the unlisted
    code with the flag clear. *)
Example classification_domain_witness :
  fieldToColumnType (sample_field (Some MySqlTypes.JSON) 0 None None "doc") = Return Json /\
  (classifies (sample_field (Some 0x11) MySqlFlags.ENUM None None "size") /\
   fieldToColumnType (sample_field (Some 0x11) MySqlFlags.ENUM None None "size") =
   Return Enum /\
   fieldToColumnType (sample_field (Some MySqlTypes.SET) MySqlFlags.ENUM None None "tags") =
   Return Enum) /\
  fieldToColumnType (sample_field (Some 0x11) 0 None None "stamp") =
  Throw {| type := "Unknown";
           Conversion.message := "Unsupported native data type: Unknown" |}.
Proof.
  split; [| split].
  - destruct (proj1 (classification_domain
                       (sample_field (Some MySqlTypes.JSON) 0 None None "doc"))
                MySqlTypes.JSON eq_refl) as [t Ht].
    + exists "JSON". vm_compute. reflexivity.
    + discriminate.
    + discriminate.
    + discriminate.
    + rewrite Ht. vm_compute in Ht. exact (eq_sym Ht).
  - split; [| split].
    + apply (proj1 (proj1 (proj2 (classification_domain
                             (sample_field (Some 0x11) MySqlFlags.ENUM None None "size")))
                      ltac:(vm_compute; discriminate))).
    + apply (proj2 (proj1 (proj2 (classification_domain
                             (sample_field (Some 0x11) MySqlFlags.ENUM None None "size")))
                      ltac:(vm_compute; discriminate))).
      right. right. right. right. right.
      intros c Hc. injection Hc as <-. vm_compute. reflexivity.
    + apply (proj2 (proj1 (proj2 (classification_domain
                             (sample_field (Some MySqlTypes.SET) MySqlFlags.ENUM None None
                                "tags")))
                      ltac:(vm_compute; discriminate))).
      right. right. left. reflexivity.
  - apply (proj2 (proj2 (classification_domain
                           (sample_field (Some 0x11) 0 None None "stamp")))).
    + reflexivity.
    + intros c Hc. injection Hc as <-. vm_compute. reflexivity.
Defined.

(** C1 as stated fails on the code: SET and GEOMETRY are codes of the table
    and are rejected, under their own names; and a code outside the table is
    classified, as Enum, when the ENUM flag bit is set. *)
Example classification_not_total_on_table :
  (MySqlCodes !! MySqlTypes.SET = Some "SET" /\
   fieldToColumnType (sample_field (Some MySqlTypes.SET) 0 (Some 33) (Some 4) "tags") =
   Throw {| type := "SET"; Conversion.message := "Unsupported native data type: SET" |}) /\
  (MySqlCodes !! MySqlTypes.GEOMETRY = Some "GEOMETRY" /\
   fieldToColumnType (sample_field (Some MySqlTypes.GEOMETRY) 0 (Some 63) None "area") =
   Throw {| type := "GEOMETRY";
            Conversion.message := "Unsupported native data type: GEOMETRY" |}) /\
  (MySqlCodes !! 0x11 = None /\
   fieldToColumnType (sample_field (Some 0x11) MySqlFlags.ENUM None None "size") =
   Return Enum).
Proof.
  repeat split; vm_compute; reflexivity.
Qed.

(** C2 at two rejections: the access-denied error, and [undefined]. *)
Example driver_failure_translation_witness :
  (exists r,
     fst (queryRaw (rejecting_server (ThrownError access_denied)) Pool sample_query []) =
     Return (err r) /\
     r = Error_Mysql 1045 "Access denied" "28000" /\
     kind r = "Mysql") /\
  fst (executeRaw (rejecting_server ThrownNullish) Pool sample_query []) = Throw ThrownNullish.
Proof.
  split.
  - apply (proj1 (proj1 (driver_failure_translation
                           (rejecting_server (ThrownError access_denied)) Pool []
                           sample_query (ThrownError access_denied)) eq_refl)
             access_denied 1045 eq_refl eq_refl).
    discriminate.
  - apply (proj2 (proj2 (driver_failure_translation
                           (rejecting_server ThrownNullish) Pool []
                           sample_query ThrownNullish) eq_refl)).
    left. reflexivity.
Defined.

(** C2 as stated fails on the code: the failure code=1045, message="Access
    denied", state="28000" comes back with kind ["Mysql"], not
    ["DatabaseError"]; and a failure that has all three attributes with
    code 0 is thrown again, not turned into an error value. *)
Example access_denied_has_kind_Mysql :
  fst (queryRaw (rejecting_server (ThrownError access_denied)) Pool sample_query []) =
  Return (err (Error_Mysql 1045 "Access denied" "28000")) /\
  kind (Error_Mysql 1045 "Access denied" "28000") = "Mysql" /\
  kind (Error_Mysql 1045 "Access denied" "28000") <> "DatabaseError" /\
  fst (queryRaw
         (rejecting_server
            (ThrownError {| code := Some 0; Mysql.message := "Lost"; state := "HY000" |}))
         Pool sample_query []) =
  Throw (ThrownError {| code := Some 0; Mysql.message := "Lost"; state := "HY000" |}).
Proof.
  repeat split; try reflexivity. discriminate.
Qed.

(** C3 at BIT descriptors of declared length 1, 2 and 0. *)
Example bit_classification_witness :
  fieldToColumnType (sample_field (Some MySqlTypes.BIT) 0 None (Some 1) "active") =
  Return Boolean /\
  fieldToColumnType (sample_field (Some MySqlTypes.BIT) 0 None (Some 2) "mask") =
  Return Bytes /\
  fieldToColumnType (sample_field (Some MySqlTypes.BIT) 0 None (Some 0) "none") =
  Throw {| type := "BIT"; Conversion.message := "Unsupported native data type: BIT" |}.
Proof.
  split; [| split].
  - apply (proj1 (bit_classification
                    (sample_field (Some MySqlTypes.BIT) 0 None (Some 1) "active") eq_refl)).
    reflexivity.
  - apply (proj1 (proj2 (bit_classification
                    (sample_field (Some MySqlTypes.BIT) 0 None (Some 2) "mask") eq_refl))).
    reflexivity.
  - apply (proj1 (proj2 (proj2 (bit_classification
                    (sample_field (Some MySqlTypes.BIT) 0 None (Some 0) "none") eq_refl))
                   eq_refl)).
    reflexivity.
Defined.

(** C3 as stated fails on the code: a BIT descriptor of declared length 0
    is not classified as Bytes, it is rejected. *)
Example bit_of_length_0_is_rejected :
  columnType (sample_field (Some MySqlTypes.BIT) 0 None (Some 0) "none") = Some 0x10 /\
  columnLength (sample_field (Some MySqlTypes.BIT) 0 None (Some 0) "none") = Some 0 /\
  fieldToColumnType (sample_field (Some MySqlTypes.BIT) 0 None (Some 0) "none") =
  Throw {| type := "BIT"; Conversion.message := "Unsupported native data type: BIT" |} /\
  fieldToColumnType (sample_field (Some MySqlTypes.BIT) 0 None (Some 0) "none") <>
  Return Bytes.
Proof.
  repeat split; try reflexivity. vm_compute. discriminate.
Qed.

(** C4 at two fields: a LONGLONG keeps its text where the default decoder
    would round it, a LONG takes the default decoder's number. *)
Example field_decoding_policy_witness :
  typeCast
    {| TypeCastField.type := "LONGLONG"; TypeCastField.length := 20;
       TypeCastField.db := "shop"; TypeCastField.table := "orders";
       TypeCastField.name := "id"; TypeCastField.string_ := Some "9007199254740993" |}
    (fun _ => VNumber 9007199254740992) =
  VString "9007199254740993" /\
  typeCast
    {| TypeCastField.type := "LONG"; TypeCastField.length := 11;
       TypeCastField.db := "shop"; TypeCastField.table := "orders";
       TypeCastField.name := "qty"; TypeCastField.string_ := Some "3" |}
    (fun _ => VNumber 3) =
  VNumber 3.
Proof.
  split.
  - apply (proj1 (proj1 field_decoding_policy
                    {| TypeCastField.type := "LONGLONG"; TypeCastField.length := 20;
                       TypeCastField.db := "shop"; TypeCastField.table := "orders";
                       TypeCastField.name := "id";
                       TypeCastField.string_ := Some "9007199254740993" |}
                    (fun _ => VNumber 9007199254740992))).
    simpl. tauto.
  - apply (proj2 (proj1 field_decoding_policy
                    {| TypeCastField.type := "LONG"; TypeCastField.length := 11;
                       TypeCastField.db := "shop"; TypeCastField.table := "orders";
                       TypeCastField.name := "qty"; TypeCastField.string_ := Some "3" |}
                    (fun _ => VNumber 3))).
    simpl. intros [H | [H | [H | [H | []]]]]; discriminate H.
Defined.

(** C4 as stated fails on the code: the options [executeRaw] passes to the
    client hold no [typeCast] (and no [rowsAsArray]). *)
Example executeRaw_installs_no_policy :
  snd (executeRaw (resolving_server (HeaderData (inserted_header 7)) None) Pool
         sample_query []) =
  [EvQuery Pool
     {| QueryOptions.sql := "SELECT 1"; QueryOptions.values := [];
        QueryOptions.rowsAsArray := None; QueryOptions.typeCast := None |}] /\
  QueryOptions.typeCast (executeRaw_options sample_query) <> Some typeCast.
Proof.
  split; [reflexivity | discriminate].
Qed.

(** C5 at a three-column result whose second column is a GEOMETRY. *)
Example unclassifiable_column_fails_query_witness :
  Exists unclassifiable
    [sample_field (Some MySqlTypes.LONG) 0 None None "id";
     sample_field (Some MySqlTypes.GEOMETRY) 0 None None "area";
     sample_field (Some MySqlTypes.VARCHAR) 0 (Some 33) None "label"] /\
  fst (queryRaw
         (resolving_server (RowData [])
            (Some [sample_field (Some MySqlTypes.LONG) 0 None None "id";
                   sample_field (Some MySqlTypes.GEOMETRY) 0 None None "area";
                   sample_field (Some MySqlTypes.VARCHAR) 0 (Some 33) None "label"]))
         Pool sample_query []) =
  Return (err (Error_UnsupportedNativeDataType "GEOMETRY")).
Proof.
  assert (Exists unclassifiable
            [sample_field (Some MySqlTypes.LONG) 0 None None "id";
             sample_field (Some MySqlTypes.GEOMETRY) 0 None None "area";
             sample_field (Some MySqlTypes.VARCHAR) 0 (Some 33) None "label"]) as Hex.
  { apply Exists_cons_tl, Exists_cons_hd. eexists. vm_compute. reflexivity. }
  split; [exact Hex |].
  destruct (unclassifiable_column_fails_query
              (resolving_server (RowData [])
                 (Some [sample_field (Some MySqlTypes.LONG) 0 None None "id";
                        sample_field (Some MySqlTypes.GEOMETRY) 0 None None "area";
                        sample_field (Some MySqlTypes.VARCHAR) 0 (Some 33) None "label"]))
              Pool [] sample_query (RowData []) _ eq_refl Hex)
    as [pre [field [post [e [_ [_ [_ [Hres _]]]]]]]].
  rewrite Hres. vm_compute in Hres. exact (eq_sym Hres).
Defined.

(** C6 at one descriptor per rule. *)
Example integer_codes_classification_witness :
  fieldToColumnType (sample_field (Some MySqlTypes.YEAR) MySqlFlags.UNSIGNED None None "y") =
  Return Int32 /\
  fieldToColumnType (sample_field (Some MySqlTypes.LONG) 0 None None "n") = Return Int32 /\
  fieldToColumnType (sample_field (Some MySqlTypes.INT24) 33 None None "m") = Return Int64 /\
  fieldToColumnType (sample_field (Some MySqlTypes.LONGLONG) 0 None None "big") = Return Int64.
Proof.
  split; [| split; [| split]].
  - apply (proj1 (integer_codes_classification
                    (sample_field (Some MySqlTypes.YEAR) MySqlFlags.UNSIGNED None None "y"))).
    right. right. reflexivity.
  - apply (proj1 (proj1 (proj2 (integer_codes_classification
                    (sample_field (Some MySqlTypes.LONG) 0 None None "n")))
                    (or_introl eq_refl))).
    reflexivity.
  - apply (proj2 (proj1 (proj2 (integer_codes_classification
                    (sample_field (Some MySqlTypes.INT24) 33 None None "m")))
                    (or_intror eq_refl))).
    vm_compute. discriminate.
  - apply (proj2 (proj2 (integer_codes_classification
                    (sample_field (Some MySqlTypes.LONGLONG) 0 None None "big")))).
    reflexivity.
Defined.

(** C7 at a binary BLOB, a text BLOB and a VAR_STRING in character set 63. *)
Example blob_and_string_codes_classification_witness :
  fieldToColumnType (sample_field (Some MySqlTypes.BLOB) 0 (Some 63) None "raw") =
  Return Bytes /\
  fieldToColumnType (sample_field (Some MySqlTypes.BLOB) 0 (Some 5) None "body") =
  Return Text /\
  fieldToColumnType (sample_field (Some MySqlTypes.VAR_STRING) 0 (Some 63) None "tag") =
  Return Text.
Proof.
  split; [| split].
  - apply (proj1 (proj1 (blob_and_string_codes_classification
                    (sample_field (Some MySqlTypes.BLOB) 0 (Some 63) None "raw"))
                    (or_intror (or_intror (or_intror eq_refl))))).
    reflexivity.
  - apply (proj2 (proj1 (blob_and_string_codes_classification
                    (sample_field (Some MySqlTypes.BLOB) 0 (Some 5) None "body"))
                    (or_intror (or_intror (or_intror eq_refl))))).
    discriminate.
  - apply (proj2 (blob_and_string_codes_classification
                    (sample_field (Some MySqlTypes.VAR_STRING) 0 (Some 63) None "tag"))).
    right. left. reflexivity.
Defined.


(** C10 at two descriptors that differ in their column name only. *)
Example classification_reads_four_attributes_witness :
  name (sample_field (Some MySqlTypes.BLOB) 128 (Some 63) (Some 65535) "avatar") <>
  name (sample_field (Some MySqlTypes.BLOB) 128 (Some 63) (Some 65535) "thumbnail") /\
  fieldToColumnType (sample_field (Some MySqlTypes.BLOB) 128 (Some 63) (Some 65535) "avatar") =
  fieldToColumnType (sample_field (Some MySqlTypes.BLOB) 128 (Some 63) (Some 65535) "thumbnail").
Proof.
  split.
  - discriminate.
  - apply classification_reads_four_attributes; reflexivity.
Defined.

(** * Further properties of the code *)

(** ** [hasFlag] *)

Lemma land_pow2 (x k : Z) :
  0 <= k -> Z.land x (2 ^ k) = if Z.testbit x k then 2 ^ k else 0.
Proof.
  intros Hk. apply Z.bits_inj'. intros i Hi.
  rewrite Z.land_spec, Z.pow2_bits_eqb by exact Hk.
  destruct (Z.eqb_spec k i) as [<- | Hne].
  - rewrite andb_true_r. destruct (Z.testbit x k) eqn:Hx.
    + symmetry. apply Z.pow2_bits_true. exact Hk.
    + symmetry. apply Z.bits_0.
  - rewrite andb_false_r. destruct (Z.testbit x k).
    + symmetry. apply Z.pow2_bits_false. exact Hne.
    + symmetry. apply Z.bits_0.
Qed.

Lemma truthy_hasFlag_testbit (flags k : Z) :
  0 <= k < 31 -> truthy (hasFlag flags (2 ^ k)) = Z.testbit flags k.
Proof.
  intros Hk.
  assert (0 <= 2 ^ k < 2 ^ 31) as Hrange.
  { split; [apply Z.pow_nonneg; lia | apply Z.pow_lt_mono_r; lia]. }
  rewrite hasFlag_land, land_pow2 by (exact Hrange || lia).
  destruct (Z.testbit flags k); unfold truthy.
  - apply negb_true_iff, Z.eqb_neq.
    pose proof (Z.pow_pos_nonneg 2 k ltac:(lia) ltac:(lia)). lia.
  - reflexivity.
Qed.

(** X1. On a single-bit mask below 2^31, which every constant of
    [MySqlFlags] is, [hasFlag] returns the mask when that bit of the flags is
    set and 0 when it is clear, for flags of any size or sign: the 32-bit
    truncation of [&] loses nothing. *)
Theorem hasFlag_single_bit (flags k : Z) :
  0 <= k < 31 ->
  hasFlag flags (2 ^ k) = if Z.testbit flags k then 2 ^ k else 0.
Proof.
  intros Hk. rewrite hasFlag_land.
  - apply land_pow2. lia.
  - split; [apply Z.pow_nonneg; lia | apply Z.pow_lt_mono_r; lia].
Qed.

(** X1 at the UNSIGNED mask and a flag word wider than 32 bits. *)
Example hasFlag_single_bit_witness :
  hasFlag (2 ^ 40 + 33) MySqlFlags.UNSIGNED = 32 /\
  hasFlag (2 ^ 40 + 1) MySqlFlags.UNSIGNED = 0.
Proof.
  split.
  - apply (hasFlag_single_bit (2 ^ 40 + 33) 5). lia.
  - apply (hasFlag_single_bit (2 ^ 40 + 1) 5). lia.
Defined.

(** ** The rule chain of the classifier *)

Section RuleChain.

Variable f : FieldPacket.

(** X2. The rules of [fieldToColumnType] that C3, C6 and C7 leave out,
    whatever the character set and declared length: DECIMAL and NEWDECIMAL
    are Numeric, FLOAT is Float, DOUBLE is Double, TIMESTAMP and DATETIME
    are DateTime, TIME is Time, DATE and NEWDATE are Date, JSON is Json and
    ENUM is Enum, all whatever the flags; NULL is Int32 when the ENUM flag
    bit (256) is clear, and Enum when it is set, the Enum rule being tried
    first. *)
Theorem remaining_codes_classification :
  (columnType f = Some MySqlTypes.DECIMAL \/ columnType f = Some MySqlTypes.NEWDECIMAL ->
   fieldToColumnType f = Return Numeric) /\
  (columnType f = Some MySqlTypes.FLOAT -> fieldToColumnType f = Return Float) /\
  (columnType f = Some MySqlTypes.DOUBLE -> fieldToColumnType f = Return Double) /\
  (columnType f = Some MySqlTypes.TIMESTAMP \/ columnType f = Some MySqlTypes.DATETIME ->
   fieldToColumnType f = Return DateTime) /\
  (columnType f = Some MySqlTypes.TIME -> fieldToColumnType f = Return Time) /\
  (columnType f = Some MySqlTypes.DATE \/ columnType f = Some MySqlTypes.NEWDATE ->
   fieldToColumnType f = Return Date) /\
  (columnType f = Some MySqlTypes.JSON -> fieldToColumnType f = Return Json) /\
  (columnType f = Some MySqlTypes.ENUM -> fieldToColumnType f = Return Enum) /\
  (columnType f = Some MySqlTypes.NULL ->
   (Z.land (flags f) MySqlFlags.ENUM = 0 -> fieldToColumnType f = Return Int32) /\
   (Z.land (flags f) MySqlFlags.ENUM <> 0 -> fieldToColumnType f = Return Enum)).
Proof.
  repeat match goal with |- _ /\ _ => split end;
    try (intros [H | H]; unfold_classifier; rewrite H; reflexivity);
    try (intros H; unfold_classifier; rewrite H; reflexivity).
  intros H. split; intros Hflag.
  - apply hasFlag_clear in Hflag; [| flag_range].
    unfold_classifier. rewrite H, Hflag. reflexivity.
  - apply hasFlag_set in Hflag; [| flag_range].
    unfold_classifier. rewrite H, Hflag. reflexivity.
Qed.

(** Every rule of [code_rules] is false on a code outside the name table. *)
Lemma code_rules_unlisted :
  (forall c, columnType f = Some c -> MySqlCodes !! c = None) ->
  Forall (fun rule => rule f = false) code_rules.
Proof.
  intros Hout. pose proof (unlisted_code_rules f Hout) as Hrule.
  unfold code_rules. repeat constructor; unfold_classifier;
    repeat match goal with
           | |- context [columnType f === ?k] =>
               rewrite (Hrule k _ ltac:(vm_compute; reflexivity))
           end;
    reflexivity.
Qed.

Lemma filter_rules_length (rules : list (FieldPacket -> bool)) :
  length (List.filter (fun rule => rule f) rules) =
  length (List.filter (fun b : bool => b) (map (fun rule => rule f) rules)).
Proof.
  induction rules as [| rule rest IH]; simpl; [reflexivity |].
  destruct (rule f); simpl; rewrite IH; reflexivity.
Qed.

(** X3. The thirteen rules that test the type code (all but [isEnum]) are
    mutually exclusive: no descriptor satisfies two of them, so among them
    the order of the chain decides nothing. *)
Theorem code_rules_exclusive :
  (length (List.filter (fun rule => rule f) code_rules) <= 1)%nat.
Proof.
  destruct (columnType f) as [c |] eqn:Hc.
  - destruct (MySqlCodes !! c) as [code_name |] eqn:Hname.
    + apply MySqlCodes_lookup in Hname. simpl in Hname.
      rewrite filter_rules_length. unfold code_rules. cbn [map].
      repeat (destruct Hname as [<- | Hname];
        [ unfold_classifier; rewrite Hc;
          destruct (truthy (hasFlag (flags f) MySqlFlags.UNSIGNED));
          destruct (characterSet f === 63);
          destruct (columnLength f) as [len |];
          try (destruct (Z.eqb_spec len 1) as [-> | Hlen];
               [| destruct (truthy len && (1 <? len))]);
          cbn;
          try match goal with
              | Hlen : ?len <> 1 |- _ =>
                  destruct (Z.eqb_spec len 1); [contradiction |]
              end;
          cbn; lia
        | ]).
      contradiction.
    + assert (forall c', columnType f = Some c' -> MySqlCodes !! c' = None) as Hout.
      { intros c' Hc'. rewrite Hc in Hc'. injection Hc' as <-. exact Hname. }
      pose proof (code_rules_unlisted Hout) as Hall.
      induction Hall as [| rule rest Hrule _ IH]; simpl; [lia |].
      rewrite Hrule. exact IH.
  - assert (forall c', columnType f = Some c' -> MySqlCodes !! c' = None) as Hout.
    { intros c' Hc'. rewrite Hc in Hc'. discriminate. }
    pose proof (code_rules_unlisted Hout) as Hall.
    induction Hall as [| rule rest Hrule _ IH]; simpl; [lia |].
    rewrite Hrule. exact IH.
Qed.

End RuleChain.

(** ** What the classifier reads of the flags *)

Lemma unsigned_flag_testbit (flags : Z) :
  truthy (hasFlag flags MySqlFlags.UNSIGNED) = Z.testbit flags 5.
Proof.
  apply (truthy_hasFlag_testbit flags 5). lia.
Qed.

Lemma enum_flag_testbit (flags : Z) :
  truthy (hasFlag flags MySqlFlags.ENUM) = Z.testbit flags 8.
Proof.
  apply (truthy_hasFlag_testbit flags 8). lia.
Qed.

(** X4. Of the flags, classification reads bit 5 (UNSIGNED) and bit 8 (ENUM)
    and nothing else: two descriptors that agree on the type code, character
    set and declared length and on those two bits classify alike, whatever
    NOT_NULL, PRI_KEY, BINARY or any other bit says. *)
Theorem classification_reads_two_flag_bits (f g : FieldPacket) :
  columnType f = columnType g ->
  characterSet f = characterSet g ->
  columnLength f = columnLength g ->
  Z.testbit (flags f) 5 = Z.testbit (flags g) 5 ->
  Z.testbit (flags f) 8 = Z.testbit (flags g) 8 ->
  fieldToColumnType f = fieldToColumnType g.
Proof.
  intros Hct Hcs Hlen Hunsigned Henum.
  unfold_classifier. unfold new_UnsupportedNativeDataType.
  rewrite !unsigned_flag_testbit, !enum_flag_testbit.
  rewrite Hct, Hcs, Hlen, Hunsigned, Henum. reflexivity.
Qed.

(** X4 at an unsigned LONG primary key and a plain unsigned LONG. *)
Example classification_reads_two_flag_bits_witness :
  flags (sample_field (Some MySqlTypes.LONG) 547 None (Some 10) "id") <>
  flags (sample_field (Some MySqlTypes.LONG) 32 None (Some 10) "id") /\
  fieldToColumnType (sample_field (Some MySqlTypes.LONG) 547 None (Some 10) "id") =
  fieldToColumnType (sample_field (Some MySqlTypes.LONG) 32 None (Some 10) "id").
Proof.
  split.
  - discriminate.
  - apply classification_reads_two_flag_bits; reflexivity.
Defined.

(** X5. The ENUM flag is a fallback: it never overrides another rule. If a
    descriptor with the flag clear classifies, and its code is not NULL, then
    a descriptor that differs from it in the ENUM bit (or in any flag bit
    but UNSIGNED) classifies the same way. So a STRING column that carries
    the ENUM flag is Text, not Enum. *)
Theorem enum_flag_never_overrides (f g : FieldPacket) (t : ColumnType) :
  columnType f = columnType g ->
  characterSet f = characterSet g ->
  columnLength f = columnLength g ->
  Z.testbit (flags f) 5 = Z.testbit (flags g) 5 ->
  Z.land (flags g) MySqlFlags.ENUM = 0 ->
  columnType g <> Some MySqlTypes.NULL ->
  fieldToColumnType g = Return t ->
  fieldToColumnType f = Return t.
Proof.
  intros Hct Hcs Hlen Hbit Hclear Hnull Hg.
  assert (truthy (hasFlag (flags f) MySqlFlags.UNSIGNED) =
          truthy (hasFlag (flags g) MySqlFlags.UNSIGNED)) as Hunsigned.
  { rewrite !unsigned_flag_testbit. exact Hbit. }
  apply hasFlag_clear in Hclear; [| flag_range].
  apply strict_eq_false in Hnull.
  unfold fieldToColumnType in *.
  same_rule isReal f g Hct Hcs Hlen Hunsigned.
  same_rule isFloat f g Hct Hcs Hlen Hunsigned.
  same_rule isDouble f g Hct Hcs Hlen Hunsigned.
  same_rule isInt32 f g Hct Hcs Hlen Hunsigned.
  same_rule isInt64 f g Hct Hcs Hlen Hunsigned.
  same_rule isDateTime f g Hct Hcs Hlen Hunsigned.
  same_rule isTime f g Hct Hcs Hlen Hunsigned.
  same_rule isDate f g Hct Hcs Hlen Hunsigned.
  same_rule isText f g Hct Hcs Hlen Hunsigned.
  same_rule isBytes f g Hct Hcs Hlen Hunsigned.
  same_rule isBool f g Hct Hcs Hlen Hunsigned.
  same_rule isJson f g Hct Hcs Hlen Hunsigned.
  repeat match goal with
         | |- (if ?b then _ else _) = _ => destruct b; [exact Hg |]
         end.
  unfold isEnum, isNull in *. rewrite Hct. rewrite Hclear, Hnull in Hg.
  destruct (columnType g === MySqlTypes.ENUM); simpl in *; [exact Hg | discriminate Hg].
Qed.

(** X5 at a STRING column with the ENUM flag: Text, as without the flag. *)
Example enum_flag_never_overrides_witness :
  fieldToColumnType (sample_field (Some MySqlTypes.STRING) 256 (Some 33) (Some 24) "size") =
  Return Text /\
  isText (sample_field (Some MySqlTypes.STRING) 256 (Some 33) (Some 24) "size") = true /\
  isEnum (sample_field (Some MySqlTypes.STRING) 256 (Some 33) (Some 24) "size") = true.
Proof.
  split; [| split; reflexivity].
  apply (enum_flag_never_overrides
           (sample_field (Some MySqlTypes.STRING) 256 (Some 33) (Some 24) "size")
           (sample_field (Some MySqlTypes.STRING) 0 (Some 33) (Some 24) "size"));
    try reflexivity.
  discriminate.
Defined.

(** ** When the classifier throws *)

(** A throw means every rule of the chain was false, and the exception is
    the one the constructor builds from the descriptor. *)
Lemma fieldToColumnType_throw (f : FieldPacket) (e : UnsupportedNativeDataType) :
  fieldToColumnType f = Throw e ->
  e = new_UnsupportedNativeDataType f /\
  isEnum f = false /\
  Forall (fun rule => rule f = false) code_rules.
Proof.
  unfold fieldToColumnType, code_rules. intros H.
  repeat match type of H with
         | (if ?b then _ else _) = _ =>
             let Hb := fresh "Hb" in destruct b eqn:Hb; [discriminate H |]
         end.
  injection H as <-. repeat split; try assumption. repeat constructor; assumption.
Qed.

(** The code of a descriptor is a key of the name table, or it is not. *)
Lemma MySqlCodes_listed_or_not (f : FieldPacket) :
  (exists c code_name, columnType f = Some c /\ MySqlCodes !! c = Some code_name) \/
  (forall c, columnType f = Some c -> MySqlCodes !! c = None).
Proof.
  destruct (columnType f) as [c |] eqn:Hc.
  - destruct (MySqlCodes !! c) as [code_name |] eqn:Hname.
    + left. exists c, code_name. auto.
    + right. intros c' Hc'. injection Hc' as <-. exact Hname.
  - right. intros c' Hc'. discriminate.
Qed.

(** X6. [fieldToColumnType] throws in four situations only, all with the
    ENUM flag bit clear, and names them: a BIT column whose declared length
    is absent or below 1 (BIT), a SET column (SET), a GEOMETRY column
    (GEOMETRY), and a type code that is absent or not a key of the name table
    (Unknown). The message is always the fixed prefix followed by that
    name. In particular the name is never that of a code that classifies. *)
Theorem rejection_characterization (f : FieldPacket) (e : UnsupportedNativeDataType) :
  fieldToColumnType f = Throw e ->
  Z.land (flags f) MySqlFlags.ENUM = 0 /\
  Conversion.message e = "Unsupported native data type: " +:+ type e /\
  ((columnType f = Some MySqlTypes.BIT /\ type e = "BIT" /\
    forall len, columnLength f = Some len -> len < 1) \/
   (columnType f = Some MySqlTypes.SET /\ type e = "SET") \/
   (columnType f = Some MySqlTypes.GEOMETRY /\ type e = "GEOMETRY") \/
   ((forall c, columnType f = Some c -> MySqlCodes !! c = None) /\ type e = "Unknown")).
Proof.
  intros H. apply fieldToColumnType_throw in H as [Hthrown [Henum Hrules]].
  assert (Z.land (flags f) MySqlFlags.ENUM = 0) as Hclear.
  { destruct (Z.eq_dec (Z.land (flags f) MySqlFlags.ENUM) 0) as [H0 | Hne]; [exact H0 |].
    apply isEnum_flag in Hne. congruence. }
  split; [exact Hclear |]. split; [rewrite Hthrown; reflexivity |].
  assert (forall c code_name,
            columnType f = Some c -> c <> 0 -> MySqlCodes !! c = Some code_name ->
            type e = code_name) as Hlisted.
  { intros c code_name Hc Hc0 Hname. rewrite Hthrown.
    unfold new_UnsupportedNativeDataType. rewrite Hc, Hname. unfold truthy.
    destruct (Z.eqb_spec c 0); [contradiction | reflexivity]. }
  assert ((forall c, columnType f = Some c -> MySqlCodes !! c = None) ->
          type e = "Unknown") as Hunlisted.
  { intros Hout. rewrite Hthrown. unfold new_UnsupportedNativeDataType.
    destruct (columnType f) as [c |]; [| reflexivity].
    rewrite (Hout c eq_refl). destruct (truthy c); reflexivity. }
  clear Hthrown.
  unfold code_rules in Hrules.
  repeat match goal with
         | Hall : Forall _ (_ :: _) |- _ =>
             let Hrule := fresh "Hrule" in
             apply Forall_cons in Hall as [Hrule Hall]
         end.
  clear Hrules.
  destruct (MySqlCodes_listed_or_not f) as [[c [code_name [Hc Hname]]] | Hout].
  - pose proof Hname as Hin. apply MySqlCodes_lookup in Hin. simpl in Hin.
    repeat (destruct Hin as [<- | Hin];
      [ unfold_rules;
        destruct (truthy (hasFlag (flags f) MySqlFlags.UNSIGNED));
        destruct (characterSet f === 63);
        repeat match goal with
               | Hr : context [columnType f === _] |- _ =>
                   rewrite Hc in Hr; simpl in Hr
               end;
        try match goal with Hr : true = false |- _ => discriminate Hr end;
        pose proof (Hlisted _ _ Hc ltac:(discriminate) Hname) as Htype;
        vm_compute in Hname; injection Hname as <-;
        first
          [ left; repeat split; try assumption;
            intros len Hlen; rewrite Hlen in *; simpl in *; unfold truthy in *;
            destruct (Z.eqb_spec len 1); [discriminate |];
            destruct (Z.eqb_spec len 0); [lia |];
            destruct (Z.ltb_spec 1 len); [discriminate | lia]
          | right; left; split; assumption
          | right; right; left; split; assumption ]
      | ]).
    contradiction.
  - right. right. right. split; [exact Hout | exact (Hunlisted Hout)].
Qed.

(** X6 at a GEOMETRY column. *)
Example rejection_characterization_witness :
  Z.land (flags (sample_field (Some MySqlTypes.GEOMETRY) 1 None None "area"))
    MySqlFlags.ENUM = 0 /\
  Conversion.message
    (new_UnsupportedNativeDataType (sample_field (Some MySqlTypes.GEOMETRY) 1 None None "area")) =
  "Unsupported native data type: GEOMETRY".
Proof.
  destruct (rejection_characterization
              (sample_field (Some MySqlTypes.GEOMETRY) 1 None None "area")
              (new_UnsupportedNativeDataType
                 (sample_field (Some MySqlTypes.GEOMETRY) 1 None None "area"))
              eq_refl) as [Hclear [Hmessage _]].
  split; [exact Hclear | exact Hmessage].
Defined.

(** ** The decoding policy and the classifier together *)

(** X7. The four type names whose values [typeCast] keeps as text belong,
    through the name table [MySqlCodes], to codes the classifier accepts
    whatever the flags, character set and length: a column the table names
    LONGLONG is Int64, one it names DATE is Date, one it names TIMESTAMP or
    DATETIME is DateTime. So a cell that [typeCast] hands over as text always
    sits in a column typed Int64, Date or DateTime. *)
Theorem text_decoded_columns_classification
    (f : FieldPacket) (c : Z) (field : TypeCastField.t) (next : unit -> Value) :
  columnType f = Some c ->
  MySqlCodes !! c = Some (TypeCastField.type field) ->
  In (TypeCastField.type field) ["TIMESTAMP"; "DATETIME"; "DATE"; "LONGLONG"] ->
  typeCast field next = field_string field /\
  ((TypeCastField.type field = "LONGLONG" /\ fieldToColumnType f = Return Int64) \/
   (TypeCastField.type field = "DATE" /\ fieldToColumnType f = Return Date) \/
   ((TypeCastField.type field = "TIMESTAMP" \/ TypeCastField.type field = "DATETIME") /\
    fieldToColumnType f = Return DateTime)).
Proof.
  intros Hc Hname Hin.
  split; [exact (proj1 (typeCast_policy field next) Hin) |].
  pose proof Hname as Hcode. apply MySqlCodes_lookup in Hcode. simpl in Hcode.
  remember (TypeCastField.type field) as type_name eqn:Htype_name. clear Htype_name.
  repeat (destruct Hcode as [<- | Hcode];
    [ vm_compute in Hname; injection Hname as <-;
      first
        [ exfalso; simpl in Hin;
          destruct Hin as [Hin | [Hin | [Hin | [Hin | []]]]]; discriminate Hin
        | left; split; [reflexivity |]; unfold_classifier; rewrite Hc; reflexivity
        | right; left; split; [reflexivity |]; unfold_classifier; rewrite Hc; reflexivity
        | right; right; split; [left; reflexivity |];
          unfold_classifier; rewrite Hc; reflexivity
        | right; right; split; [right; reflexivity |];
          unfold_classifier; rewrite Hc; reflexivity ]
    | ]).
  contradiction.
Qed.

(** X7 at a BIGINT UNSIGNED column; and its limit: an unsigned LONG is Int64
    too, yet its cells take the default decoder. *)
Example text_decoded_columns_classification_witness :
  (typeCast
     {| TypeCastField.type := "LONGLONG"; TypeCastField.length := 20;
        TypeCastField.db := "shop"; TypeCastField.table := "orders";
        TypeCastField.name := "total"; TypeCastField.string_ := Some "18446744073709551615" |}
     (fun _ => VNumber 18446744073709552000) =
   VString "18446744073709551615" /\
   fieldToColumnType (sample_field (Some MySqlTypes.LONGLONG) 32 None (Some 20) "total") =
   Return Int64) /\
  (typeCast
     {| TypeCastField.type := "LONG"; TypeCastField.length := 10;
        TypeCastField.db := "shop"; TypeCastField.table := "orders";
        TypeCastField.name := "qty"; TypeCastField.string_ := Some "7" |}
     (fun _ => VNumber 7) =
   VNumber 7 /\
   fieldToColumnType (sample_field (Some MySqlTypes.LONG) 32 None (Some 10) "qty") =
   Return Int64).
Proof.
  split; [| split; reflexivity].
  destruct (text_decoded_columns_classification
              (sample_field (Some MySqlTypes.LONGLONG) 32 None (Some 20) "total")
              MySqlTypes.LONGLONG
              {| TypeCastField.type := "LONGLONG"; TypeCastField.length := 20;
                 TypeCastField.db := "shop"; TypeCastField.table := "orders";
                 TypeCastField.name := "total";
                 TypeCastField.string_ := Some "18446744073709551615" |}
              (fun _ => VNumber 18446744073709552000)
              eq_refl)
    as [Hcast [[_ Htype] | [[Hname _] | [_ Htype]]]].
  - vm_compute. reflexivity.
  - simpl. tauto.
  - split; [exact Hcast | exact Htype].
  - discriminate Hname.
  - split; [exact Hcast |]. vm_compute in Htype. discriminate Htype.
Defined.

(** ** The result set of [queryRaw] *)

Lemma map_throw_return_aligned {E A B : Type} (f : A -> Completion E B)
    (l : list A) (ys : list B) :
  map_throw f l = Return ys -> Forall2 (fun x y => f x = Return y) l ys.
Proof.
  revert ys. induction l as [| x rest IH]; intros ys H; simpl in H.
  - injection H as <-. constructor.
  - destruct (f x) as [y | e] eqn:Hx; [| discriminate].
    destruct (map_throw f rest) as [ys' | e]; [| discriminate].
    injection H as <-. constructor; [exact Hx | apply IH; reflexivity].
Qed.

Section ResultSet.

Variable server : Server.
Variable client : Client.
Variable tr : list Event.
Variable query : Query.t.

(** What [queryRaw] returns is decided by what [performIO] returned. *)
Lemma queryRaw_ok_inversion (result_set : ResultSet) :
  fst (queryRaw server client query tr) = Return (ok result_set) ->
  exists data fields,
    server tr client (queryRaw_options query) = Resolved data fields /\
    queryRaw_marshal {| data := data; fields := default [] fields |} = ok result_set.
Proof.
  intros Hres. rewrite queryRaw_unfold in Hres.
  destruct (server tr client (queryRaw_options query)) as [data fields | e] eqn:Hreply.
  - exists data, fields. split; [reflexivity |].
    rewrite (performIO_resolved _ _ _ _ _ _ Hreply) in Hres. simpl in Hres.
    congruence.
  - exfalso. unfold performIO, try_catch, bind, client_query, ret, throw in Hres.
    rewrite Hreply in Hres. destruct e as [| error]; [discriminate |].
    destruct (code error) as [c |]; [| discriminate].
    destruct (truthy c); discriminate.
Qed.

(** X8. [queryRaw] returns a result set exactly when the client resolves
    and every returned field classifies. The result set then has one column
    name and one column type per field, in field order: the name is the
    field's [name] and the type is what [fieldToColumnType] returns for that
    field. Its rows are the client's rows, untouched, when the data is an
    array, and no rows when it is a header. *)
Theorem queryRaw_result_set :
  ((exists result_set, fst (queryRaw server client query tr) = Return (ok result_set)) <->
   (exists data fields,
      server tr client (queryRaw_options query) = Resolved data fields /\
      Forall classifies (default [] fields))) /\
  (forall result_set,
     fst (queryRaw server client query tr) = Return (ok result_set) ->
     exists data fields,
       server tr client (queryRaw_options query) = Resolved data fields /\
       columnNames result_set = map name (default [] fields) /\
       length (columnTypes result_set) = length (columnNames result_set) /\
       Forall2 (fun field t => fieldToColumnType field = Return t)
         (default [] fields) (columnTypes result_set) /\
       (forall packets, data = RowData packets -> rows result_set = packets) /\
       (forall header, data = HeaderData header -> rows result_set = [])).
Proof.
  assert (forall result_set,
     fst (queryRaw server client query tr) = Return (ok result_set) ->
     exists data fields,
       server tr client (queryRaw_options query) = Resolved data fields /\
       columnNames result_set = map name (default [] fields) /\
       length (columnTypes result_set) = length (columnNames result_set) /\
       Forall2 (fun field t => fieldToColumnType field = Return t)
         (default [] fields) (columnTypes result_set) /\
       (forall packets, data = RowData packets -> rows result_set = packets) /\
       (forall header, data = HeaderData header -> rows result_set = [])) as Hshape.
  { intros result_set Hres.
    destruct (queryRaw_ok_inversion result_set Hres) as [data [fields [Hreply Hmarshal]]].
    exists data, fields. split; [exact Hreply |].
    unfold queryRaw_marshal in Hmarshal. simpl in Hmarshal.
    destruct (map_throw fieldToColumnType (default [] fields)) as [types | error] eqn:Hmap;
      [| discriminate].
    injection Hmarshal as <-. simpl.
    apply map_throw_return_aligned in Hmap.
    repeat split.
    - rewrite length_map. symmetry. exact (Forall2_length _ _ _ Hmap).
    - exact Hmap.
    - intros packets ->. reflexivity.
    - intros header ->. reflexivity. }
  split; [| exact Hshape]. split.
  - intros [result_set Hres].
    destruct (Hshape result_set Hres) as [data [fields [Hreply [_ [_ [Haligned _]]]]]].
    exists data, fields. split; [exact Hreply |].
    clear - Haligned. induction Haligned; constructor; [eexists; eassumption | assumption].
  - intros [data [fields [Hreply Hall]]].
    destruct (map_throw_all_return fieldToColumnType _ Hall) as [types [Htypes _]].
    eexists. rewrite queryRaw_unfold, (performIO_resolved _ _ _ _ _ _ Hreply).
    unfold queryRaw_marshal. simpl. rewrite Htypes. reflexivity.
Qed.

(** X9. [executeRaw] classifies nothing: whenever the client resolves it
    returns [ok], with the header's [affectedRows] (or [undefined] when the
    data is an array), whatever fields came back, unclassifiable ones
    included; it never returns an UnsupportedNativeDataType error. *)
Theorem executeRaw_never_classifies :
  (forall data fields,
     server tr client (executeRaw_options query) = Resolved data fields ->
     (forall header,
        data = HeaderData header ->
        fst (executeRaw server client query tr) = Return (ok (Some (affectedRows header)))) /\
     (forall packets,
        data = RowData packets ->
        fst (executeRaw server client query tr) = Return (ok None))) /\
  (forall name,
     fst (executeRaw server client query tr) <>
     Return (err (Error_UnsupportedNativeDataType name))).
Proof.
  split.
  - intros data fields Hreply.
    split; intros ? ->; rewrite executeRaw_unfold, (performIO_resolved _ _ _ _ _ _ Hreply);
      reflexivity.
  - intros name. rewrite executeRaw_unfold.
    unfold performIO, try_catch, bind, client_query, ret, throw.
    destruct (server tr client (executeRaw_options query)) as [data fields | [| error]];
      try discriminate.
    destruct (code error) as [c |]; [| discriminate].
    destruct (truthy c); discriminate.
Qed.

(** X10. Error translation loses nothing and invents nothing. An error
    value of kind Mysql returned by [queryRaw] or [executeRaw] repeats the
    code, message and state of the rejection the client made, and its code
    is never 0; a value thrown out of either operation is the client's own
    rejection, one whose code is absent or 0. *)
Theorem error_translation_is_exact :
  (forall c text sqlstate,
     fst (queryRaw server client query tr) = Return (err (Error_Mysql c text sqlstate)) ->
     c <> 0 /\
     server tr client (queryRaw_options query) =
     Rejected (ThrownError {| code := Some c; Mysql.message := text; state := sqlstate |})) /\
  (forall c text sqlstate,
     fst (executeRaw server client query tr) = Return (err (Error_Mysql c text sqlstate)) ->
     c <> 0 /\
     server tr client (executeRaw_options query) =
     Rejected (ThrownError {| code := Some c; Mysql.message := text; state := sqlstate |})) /\
  (forall e,
     fst (queryRaw server client query tr) = Throw e ->
     server tr client (queryRaw_options query) = Rejected e /\
     (optional_code e = None \/ optional_code e = Some 0)) /\
  (forall e,
     fst (executeRaw server client query tr) = Throw e ->
     server tr client (executeRaw_options query) = Rejected e /\
     (optional_code e = None \/ optional_code e = Some 0)).
Proof.
  repeat match goal with |- _ /\ _ => split end.
  - intros c text sqlstate. rewrite queryRaw_unfold.
    unfold performIO, try_catch, bind, client_query, ret, throw.
    destruct (server tr client (queryRaw_options query)) as [data fields | [| error]];
      simpl; try discriminate.
    + unfold queryRaw_marshal. simpl.
      destruct (map_throw fieldToColumnType (default [] fields)); discriminate.
    + destruct error as [[c' |] text' sqlstate']; simpl; [| discriminate].
      unfold truthy. destruct (Z.eqb_spec c' 0); simpl; [discriminate |].
      intros H. injection H as <- <- <-. split; [assumption | reflexivity].
  - intros c text sqlstate. rewrite executeRaw_unfold.
    unfold performIO, try_catch, bind, client_query, ret, throw.
    destruct (server tr client (executeRaw_options query)) as [data fields | [| error]];
      simpl; try discriminate.
    destruct error as [[c' |] text' sqlstate']; simpl; [| discriminate].
    unfold truthy. destruct (Z.eqb_spec c' 0); simpl; [discriminate |].
    intros H. injection H as <- <- <-. split; [assumption | reflexivity].
  - intros e. rewrite queryRaw_unfold.
    unfold performIO, try_catch, bind, client_query, ret, throw.
    destruct (server tr client (queryRaw_options query)) as [data fields | [| error]];
      simpl; try discriminate.
    + intros H. injection H as <-. auto.
    + destruct (code error) as [c' |] eqn:Hcode; simpl.
      * unfold truthy. destruct (Z.eqb_spec c' 0); simpl; [| discriminate].
        intros H. injection H as <-. subst c'. simpl. auto.
      * intros H. injection H as <-. simpl. auto.
  - intros e. rewrite executeRaw_unfold.
    unfold performIO, try_catch, bind, client_query, ret, throw.
    destruct (server tr client (executeRaw_options query)) as [data fields | [| error]];
      simpl; try discriminate.
    + intros H. injection H as <-. auto.
    + destruct (code error) as [c' |] eqn:Hcode; simpl.
      * unfold truthy. destruct (Z.eqb_spec c' 0); simpl; [| discriminate].
        intros H. injection H as <-. subst c'. simpl. auto.
      * intros H. injection H as <-. simpl. auto.
Qed.

End ResultSet.

(** ** The life of a transaction *)

(** X11. Nothing guards a transaction against being finished twice: a
    second [commit] or [rollback], in any combination with the first, calls
    [release] on the same connection again and returns [ok(undefined)] like
    the first. *)
Theorem finishing_twice_releases_twice
    (this : MySqlTransaction) (first second : bool) (tr : list Event) :
  bind (finish first this) (fun _ => finish second this) tr =
  (Return (ok tt),
   tr ++ [EvRelease (Mysql.client this); EvRelease (Mysql.client this)]) /\
  releases (Mysql.client this)
    (snd (bind (finish first this) (fun _ => finish second this) tr)) =
  S (S (releases (Mysql.client this) tr)).
Proof.
  assert (bind (finish first this) (fun _ => finish second this) tr =
          (Return (ok tt),
           tr ++ [EvRelease (Mysql.client this); EvRelease (Mysql.client this)])) as Hrun.
  { destruct first, second; unfold finish, commit, rollback, bind, client_release, ret;
      simpl; rewrite <- app_assoc; reflexivity. }
  split; [exact Hrun |].
  rewrite Hrun. simpl. rewrite releases_app. simpl.
  rewrite Client_eqb_refl. lia.
Qed.

(** X12. [startTransaction] hands back a transaction on exactly the
    connection the pool lent, with [usePhantomQuery] false, and finishing
    that transaction by [commit] or [rollback] releases that connection, once,
    and nothing else. When the pool rejects, [startTransaction] rejects with
    the same value, whatever it is: it never returns an error value, not
    even for a rejection that carries a driver code. *)
Theorem transaction_lifecycle (getConnection : Adapter.Acquire) (tr : list Event) :
  (forall id,
     getConnection tr = Return id ->
     (exists transaction,
        Adapter.startTransaction getConnection tr = (Return (ok transaction), tr) /\
        Mysql.client transaction = PoolConnection id /\
        usePhantomQuery (Mysql.options transaction) = false) /\
     (forall by_commit,
        start_then_finish getConnection by_commit tr =
        (Return (ok tt), tr ++ [EvRelease (PoolConnection id)]))) /\
  (forall e,
     getConnection tr = Throw e ->
     Adapter.startTransaction getConnection tr = (Throw e, tr) /\
     (forall by_commit, start_then_finish getConnection by_commit tr = (Throw e, tr))) /\
  (forall error,
     fst (Adapter.startTransaction getConnection tr) <> Return (err error)).
Proof.
  unfold start_then_finish, bind, Adapter.startTransaction.
  repeat match goal with |- _ /\ _ => split end.
  - intros id Hid. rewrite Hid. split.
    + eexists. repeat split.
    + intros [|]; reflexivity.
  - intros e He. rewrite He. split; [reflexivity | intros by_commit; reflexivity].
  - intros error. destruct (getConnection tr); discriminate.
Qed.

(** X12 at a pool that lends connection 3, and at a pool that rejects with
    the access-denied error, which a query would have turned into an error
    value. *)
Example transaction_lifecycle_witness :
  start_then_finish (lending_pool 3) true [] =
  (Return (ok tt), [EvRelease (PoolConnection 3)]) /\
  Adapter.startTransaction (failing_pool (ThrownError access_denied)) [] =
  (Throw (ThrownError access_denied), []).
Proof.
  split.
  - apply (proj2 (proj1 (transaction_lifecycle (lending_pool 3) []) 3%nat eq_refl)).
  - apply (proj1 (proj1 (proj2 (transaction_lifecycle
                                   (failing_pool (ThrownError access_denied)) []))
                    (ThrownError access_denied) eq_refl)).
Defined.

(** ** The further properties at sample inputs *)

(** X2 at a NULL column, without and with the ENUM flag. *)
Example remaining_codes_classification_witness :
  fieldToColumnType (sample_field (Some MySqlTypes.NULL) 0 None None "nothing") =
  Return Int32 /\
  fieldToColumnType (sample_field (Some MySqlTypes.NULL) 256 None None "nothing") =
  Return Enum.
Proof.
  split.
  - apply (proj1 (proj2 (proj2 (proj2 (proj2 (proj2 (proj2 (proj2 (proj2
             (remaining_codes_classification
                (sample_field (Some MySqlTypes.NULL) 0 None None "nothing")))))))))
             eq_refl)).
    reflexivity.
  - apply (proj2 (proj2 (proj2 (proj2 (proj2 (proj2 (proj2 (proj2 (proj2
             (remaining_codes_classification
                (sample_field (Some MySqlTypes.NULL) 256 None None "nothing")))))))))
             eq_refl)).
    vm_compute. discriminate.
Defined.

(** X8 at a query that matched no row: the columns are described all the
    same. *)
Example queryRaw_result_set_witness :
  exists result_set,
    fst (queryRaw
           (resolving_server (RowData [])
              (Some [sample_field (Some MySqlTypes.LONG) 0 None (Some 11) "id";
                     sample_field (Some MySqlTypes.VAR_STRING) 0 (Some 33) (Some 80) "label"]))
           Pool sample_query []) = Return (ok result_set) /\
    columnNames result_set = ["id"; "label"] /\
    length (columnTypes result_set) = 2%nat /\
    rows result_set = [].
Proof.
  pose proof (queryRaw_result_set
                (resolving_server (RowData [])
                   (Some [sample_field (Some MySqlTypes.LONG) 0 None (Some 11) "id";
                          sample_field (Some MySqlTypes.VAR_STRING) 0 (Some 33) (Some 80)
                            "label"]))
                Pool [] sample_query) as [Hiff Hshape].
  destruct (proj2 Hiff) as [result_set Hres].
  { eexists. eexists. split; [reflexivity |].
    repeat constructor; eexists; vm_compute; reflexivity. }
  exists result_set. split; [exact Hres |].
  destruct (Hshape result_set Hres)
    as [data [fields [Hreply [Hnames [Hlength [_ [Hrows _]]]]]]].
  unfold resolving_server in Hreply. injection Hreply as <- <-.
  rewrite Hlength, Hnames, (Hrows [] eq_refl). repeat split.
Defined.

(** X9 at an update whose reply carries a GEOMETRY field. *)
Example executeRaw_never_classifies_witness :
  fst (executeRaw
         (resolving_server (HeaderData (inserted_header 0))
            (Some [sample_field (Some MySqlTypes.GEOMETRY) 0 None None "area"]))
         Pool sample_insert []) = Return (ok (Some 1)).
Proof.
  apply (proj1 (proj1 (executeRaw_never_classifies
                         (resolving_server (HeaderData (inserted_header 0))
                            (Some [sample_field (Some MySqlTypes.GEOMETRY) 0 None None "area"]))
                         Pool [] sample_insert)
                  (HeaderData (inserted_header 0))
                  (Some [sample_field (Some MySqlTypes.GEOMETRY) 0 None None "area"])
                  eq_refl)
           (inserted_header 0) eq_refl).
Defined.

(** X10 at the access-denied rejection. *)
Example error_translation_is_exact_witness :
  fst (queryRaw (rejecting_server (ThrownError access_denied)) Pool sample_query []) =
  Return (err (Error_Mysql 1045 "Access denied" "28000")) /\
  1045 <> 0 /\
  rejecting_server (ThrownError access_denied) [] Pool (queryRaw_options sample_query) =
  Rejected (ThrownError access_denied).
Proof.
  split; [reflexivity |].
  apply (proj1 (error_translation_is_exact
                  (rejecting_server (ThrownError access_denied)) Pool [] sample_query)
           1045 "Access denied" "28000" eq_refl).
Defined.
